(** * VSIX editor: a shallow embedding of [vsixeditor.ts]

    The file [BuildTasks/PublishExtension/v5/vsixeditor.ts] holds three
    classes: [ManifestData] (output file naming), [GalleryFlagsEditor]
    (an ordered token list for the gallery flags) and [VSIXEditor] (the
    staged-edit session and the extract / patch / re-archive round trip).

    JavaScript strings are modelled as [string]; [null] fields as
    [option string]; values whose run-time type is not fixed (the result
    of a chain of [||] and [&&]) as [jsval]; exceptions and rejected
    promises as the [Throw] case of [result]; the process working
    directory and the calls made to collaborators as an explicit [world]
    threaded through a state-and-error monad. *)

From Stdlib Require Import List String Ascii Bool Arith ZArith Lia.
From Stdlib Require Import Numbers.DecimalString Numbers.DecimalNat.
Import ListNotations.
Open Scope string_scope.
Open Scope list_scope.

(* ================================================================== *)
(** * JavaScript values and strings *)
(* ================================================================== *)

Module Js.

(** The values that the untyped expressions of the file can produce. *)
Inductive jsval : Type :=
| JNull
| JStr (s : string)
| JBool (b : bool).

(** ToBoolean: [null], the empty string and [false] are falsy. *)
Definition truthy (v : jsval) : bool :=
  match v with
  | JNull => false
  | JStr s => negb (s =? "")
  | JBool b => b
  end.

(** [a || b] yields [a] when it is truthy and [b] otherwise. *)
Definition or (a b : jsval) : jsval := if truthy a then a else b.

(** [a && b] yields [a] when it is falsy and [b] otherwise. *)
Definition and (a b : jsval) : jsval := if truthy a then b else a.

(** A [string] field initialised to [null]. *)
Definition of_field (f : option string) : jsval :=
  match f with
  | None => JNull
  | Some s => JStr s
  end.

(** [f !== "default"] on such a field. *)
Definition ne_default (f : option string) : bool :=
  match f with
  | None => true
  | Some s => negb (s =? "default")
  end.

(** [if (f) ...] on such a field. *)
Definition is_set (f : option string) : bool := truthy (of_field f).

(** [String.prototype.indexOf(sub)]: first position of [sub], or -1. *)
Definition str_indexOf (sub s : string) : Z :=
  match index 0 sub s with
  | Some n => Z.of_nat n
  | None => (-1)%Z
  end.

(** [s.split(sep)] for a one-character separator.  The result is never
    empty: the empty string splits into one empty piece. *)
Fixpoint split (sep : ascii) (s : string) : list string :=
  match s with
  | EmptyString => [EmptyString]
  | String c s' =>
      if Ascii.eqb c sep then EmptyString :: split sep s'
      else match split sep s' with
           | [] => [String c EmptyString]
           | piece :: pieces => String c piece :: pieces
           end
  end.

(** [a.join(sep)]. *)
Definition join (sep : string) (a : list string) : string := concat sep a.

(** [a.indexOf(x)] scanning from index [i]: first index holding [x], or -1. *)
Fixpoint indexOf_from (i : Z) (x : string) (a : list string) : Z :=
  match a with
  | [] => (-1)%Z
  | y :: a' => if y =? x then i else indexOf_from (i + 1)%Z x a'
  end.

Definition indexOf (x : string) (a : list string) : Z := indexOf_from 0%Z x a.

(** [a.push(x)]. *)
Definition push (a : list string) (x : string) : list string := a ++ [x].

(** [a.splice(index, 1)] for an index inside the array. *)
Fixpoint splice1 (index : nat) (a : list string) : list string :=
  match a, index with
  | [], _ => []
  | _ :: a', O => a'
  | y :: a', S k => y :: splice1 k a'
  end.

(** [n.toString()] for a non-negative integer. *)
Definition toString (n : nat) : string :=
  NilEmpty.string_of_uint (Nat.to_uint n).

Fixpoint repeat_char (c : ascii) (n : nat) : string :=
  match n with
  | O => EmptyString
  | S k => String c (repeat_char c k)
  end.

(** [s.padStart(target, c)] with a one-character filler. *)
Definition padStart (target : nat) (c : ascii) (s : string) : string :=
  repeat_char c (target - length s) ++ s.

End Js.

(* ================================================================== *)
(** * GalleryFlagsEditor *)
(* ================================================================== *)

Module GalleryFlagsEditor.

(** The only field of the class. *)
Record t : Type := mk { flags : list string }.

(** The filter of the constructor: [f != null && f !== ""]. *)
Definition keep (f : string) : bool := negb (f =? "").

(** [new GalleryFlagsEditor(galleryFlagsEditor)]. *)
Definition new (galleryFlagsEditor : string) : t :=
  if Js.truthy (Js.JStr galleryFlagsEditor)
  then mk (filter keep (Js.split " " galleryFlagsEditor))
  else mk [].

Definition addFlag (flag : string) (e : t) : t :=
  if (Js.indexOf flag (flags e) <? 0)%Z
  then mk (Js.push (flags e) flag)
  else e.

Definition removeFlag (flag : string) (e : t) : t :=
  let index := Js.indexOf flag (flags e) in
  if (index >=? 0)%Z
  then mk (Js.splice1 (Z.to_nat index) (flags e))
  else e.

Definition addPublicFlag := addFlag "Public".
Definition removePublicFlag := removeFlag "Public".
Definition removePaidFlag := removeFlag "Paid".
Definition addPaidFlag := addFlag "Paid".
Definition addPreviewFlag := addFlag "Preview".
Definition removePreviewFlag := removeFlag "Preview".

Definition toString (e : t) : string := Js.join " " (flags e).

End GalleryFlagsEditor.

(* ================================================================== *)
(** * The manifest, the world and the collaborators *)
(* ================================================================== *)

(** [interface VsixManifest]: the five values the editor reads or writes;
    [PackageManifest.Metadata.Identity._Id] is [_Id], and so on.  The
    other nodes of the parsed tree are never touched. *)
Record VsixManifest : Type := mkVsixManifest {
  _Id : string;
  _Version : string;
  _Publisher : string;
  DisplayName : string;
  GalleryFlags : string
}.

Module Sys.

Inductive Platform : Type := Windows | MacOS | Linux.

Definition is_windows (p : Platform) : bool :=
  match p with Windows => true | _ => false end.

(** One entry per call that leaves the editor. *)
Inductive event : Type :=
| Debug (message : string)
| TempTrack
| TempMkdir (affixes : string)
| Import (module : string)
| Which (tool : string)
| ExecSync (tool : string) (args : list string)
| Cd (dir : string)
| Cp (source dest options : string)
| CheckUpdateTasksManifests (manifest : string)
| ReadFile (file : string)
| WriteFile (file data : string)
| FsExists (file : string).

(** The ambient state: the process working directory and the calls made
    so far, oldest first. *)
Record world : Type := mkWorld {
  cwd : string;
  trace : list event
}.

(** A call returns or throws (an [async] method: resolves or rejects). *)
Inductive result (A : Type) : Type :=
| Ok (a : A)
| Throw (message : string).
Arguments Ok {A} a.
Arguments Throw {A} message.

Definition M (A : Type) : Type := world -> result A * world.

Definition ret {A} (a : A) : M A := fun w => (Ok a, w).

Definition throw {A} (message : string) : M A := fun w => (Throw message, w).

Definition bind {A B} (c : M A) (k : A -> M B) : M B :=
  fun w =>
    match c w with
    | (Ok a, w') => k a w'
    | (Throw message, w') => (Throw message, w')
    end.

Definition emit (e : event) : M unit :=
  fun w => (Ok tt, mkWorld (cwd w) (trace w ++ [e])).

(** [process.cwd()] and [process.chdir(dir)]. *)
Definition getcwd : M string := fun w => (Ok (cwd w), w).

Definition chdir (dir : string) : M unit :=
  fun w => (Ok tt, mkWorld dir (trace w)).

(** What [ToolRunner.execSync] hands back: the exit code of the tool
    (zero or not), or the error of a spawn that failed.  It returns its
    result in both cases; it does not throw. *)
Inductive exec_outcome : Type :=
| Exited (code : Z)
| Crashed (message : string).

(** The collaborators, each as the answer it gives to a call. *)
Record Env : Type := mkEnv {
  getPlatform : Platform;
  path_join : string -> string -> string;
  path7za : option string;           (* import("7zip-bin"), None: rejected *)
  which : string -> option string;   (* tl.which(tool, true), None: throws *)
  execSync : string -> list string -> exec_outcome;
  cd_ok : string -> bool;            (* tl.cd(dir) succeeds *)
  cp_ok : string -> string -> bool;  (* tl.cp(source, dest, "-f") succeeds *)
  mkdir : string -> option string;   (* temp.mkdir(affixes), None: rejected *)
  updateTasks_ok : string -> bool;   (* common.checkUpdateTasksManifests *)
  x2js_ok : bool;                    (* import("x2js") *)
  readFile : string -> option string;
  writeFile_ok : string -> string -> bool;
  xml2js : string -> option VsixManifest;
  js2xml : VsixManifest -> string;
  fs_exists : string -> bool         (* the state of the file system *)
}.

End Sys.

Declare Scope vsix_scope.
Delimit Scope vsix_scope with vsix.
Notation "x <- c ;; k" := (Sys.bind c (fun x => k))
  (at level 61, c at next level, right associativity) : vsix_scope.
Notation "c ;; k" := (Sys.bind c (fun _ => k))
  (at level 61, right associativity) : vsix_scope.
Open Scope vsix_scope.

(** The [tl], [temp], [fse] and [common] calls of the file. *)
Module Tl.
Import Sys.

Section WithEnv.
Variable E : Env.

Definition debug (message : string) : M unit := emit (Debug message).

Definition cwd : M string := getcwd.

Definition cd (dir : string) : M unit :=
  emit (Cd dir) ;;
  if cd_ok E dir
  then chdir dir
  else throw ("Failed cd: no such directory: " ++ dir).

Definition cp (source dest options : string) : M unit :=
  emit (Cp source dest options) ;;
  if cp_ok E source dest then ret tt else throw ("Failed cp: " ++ source).

Definition which (tool : string) : M string :=
  emit (Which tool) ;;
  match Sys.which E tool with
  | Some toolPath => ret toolPath
  | None => throw ("Unable to locate executable file: " ++ tool)
  end.

Definition import_7zip_bin : M string :=
  emit (Import "7zip-bin") ;;
  match path7za E with
  | Some toolPath => ret toolPath
  | None => throw "Cannot find module 7zip-bin"
  end.

Definition import_x2js : M unit :=
  emit (Import "x2js") ;;
  if x2js_ok E then ret tt else throw "Cannot find module x2js".

(** [new tr.ToolRunner(tool)], the [arg] calls, then [execSync()]: the
    result is handed back, whatever it is. *)
Definition execSync (tool : string) (args : list string) : M exec_outcome :=
  emit (ExecSync tool args) ;;
  ret (Sys.execSync E tool args).

Definition temp_track : M unit := emit TempTrack.

Definition temp_mkdir (affixes : string) : M string :=
  emit (TempMkdir affixes) ;;
  match mkdir E affixes with
  | Some dirPath => ret dirPath
  | None => throw ("Failed mkdir: " ++ affixes)
  end.

Definition checkUpdateTasksManifests (manifest : string) : M unit :=
  emit (CheckUpdateTasksManifests manifest) ;;
  if updateTasks_ok E manifest then ret tt
  else throw ("Failed to update tasks of " ++ manifest).

Definition readFile (file : string) : M string :=
  emit (ReadFile file) ;;
  match Sys.readFile E file with
  | Some data => ret data
  | None => throw ("ENOENT: " ++ file)
  end.

Definition writeFile (file data : string) : M unit :=
  emit (WriteFile file data) ;;
  if writeFile_ok E file data then ret tt else throw ("EACCES: " ++ file).

Definition x2js_xml2js (data : string) : M VsixManifest :=
  match xml2js E data with
  | Some manifest => ret manifest
  | None => throw "Cannot read properties of null"
  end.

End WithEnv.
End Tl.

(* ================================================================== *)
(** * ManifestData *)
(* ================================================================== *)

Module ManifestData.
Import Sys.

Record t : Type := mk {
  version : string;
  id : string;
  publisher : string;
  visibility : option string;
  pricing : option string;
  name : string;
  dirPath : string;
  outputFileName : option string   (* unassigned until [endEdit] sets it *)
}.

Definition new (version id publisher : string) (visibility pricing : option string)
    (name dirPath : string) : t :=
  mk version id publisher visibility pricing name dirPath None.

Definition set_outputFileName (fileName : string) (this : t) : t :=
  mk (version this) (id this) (publisher this) (visibility this) (pricing this)
     (name this) (dirPath this) (Some fileName).

(** The template of line 35. *)
Definition canonicalName (this : t) : string :=
  publisher this ++ "." ++ id this ++ "-" ++ version this ++ ".gen.vsix".

(** The template of lines 39 and 40. *)
Definition generationName (this : t) (iteration : nat) : string :=
  let gen := Js.padStart 2 "0" (Js.toString iteration) in
  publisher this ++ "." ++ id this ++ "-" ++ version this ++ ".gen" ++ gen ++ ".vsix".

Section WithEnv.
Variable E : Env.

(** The inner arrow function [updateFileName] with the callbacks it
    chains through [fs.exists]: one round per existence check.  The
    [fileName] assigned here is the parameter of the arrow function, not
    the constant of the enclosing method.  The calls are listed in the
    order they are made; [None] when [fuel] rounds do not reach a free
    name. *)
Fixpoint updateFileName (fuel : nat) (this : t) (outputPath fileName : string)
    (iteration : nat) : option (list event) :=
  match fuel with
  | O => None
  | S fuel' =>
      let fileName :=
        if (0 <? iteration)%nat then generationName this iteration else fileName in
      let probed := path_join E outputPath fileName in
      if fs_exists E probed
      then option_map (cons (FsExists probed))
             (updateFileName fuel' this outputPath fileName (S iteration))
      else Some [FsExists probed; Debug ("Generated filename: " ++ fileName)]
  end.

(** [createOutputFilePath]: [updateFileName(fileName, 0)] issues the first
    existence check and returns at once, its callback still pending; the
    method then returns its own [fileName]. *)
Definition createOutputFilePath (this : t) (outputPath : string) : M string :=
  let fileName := canonicalName this in
  emit (FsExists (path_join E outputPath fileName)) ;;
  ret fileName.

End WithEnv.
End ManifestData.

(* ================================================================== *)
(** * VSIXEditor *)
(* ================================================================== *)

Module VSIXEditor.
Import Sys.

Record t : Type := mk {
  edit : bool;
  versionNumber : option string;
  id : option string;
  idTag : option string;
  publisher : option string;
  extensionName : option string;
  extensionVisibility : option string;
  extensionPricing : option string;
  updateTasksVersion : bool;
  updateTasksId : bool;
  inputFile : string;
  outputPath : string
}.

(** The field initialisers and the constructor. *)
Definition new (inputFile outputPath : string) : t :=
  mk false None None None None None None None true true inputFile outputPath.

Definition set_edit (b : bool) (s : t) : t :=
  mk b (versionNumber s) (id s) (idTag s) (publisher s) (extensionName s)
     (extensionVisibility s) (extensionPricing s) (updateTasksVersion s)
     (updateTasksId s) (inputFile s) (outputPath s).

Definition set_versionNumber (v : option string) (s : t) : t :=
  mk (edit s) v (id s) (idTag s) (publisher s) (extensionName s)
     (extensionVisibility s) (extensionPricing s) (updateTasksVersion s)
     (updateTasksId s) (inputFile s) (outputPath s).

Definition set_id (v : option string) (s : t) : t :=
  mk (edit s) (versionNumber s) v (idTag s) (publisher s) (extensionName s)
     (extensionVisibility s) (extensionPricing s) (updateTasksVersion s)
     (updateTasksId s) (inputFile s) (outputPath s).

Definition set_idTag (v : option string) (s : t) : t :=
  mk (edit s) (versionNumber s) (id s) v (publisher s) (extensionName s)
     (extensionVisibility s) (extensionPricing s) (updateTasksVersion s)
     (updateTasksId s) (inputFile s) (outputPath s).

Definition set_publisher (v : option string) (s : t) : t :=
  mk (edit s) (versionNumber s) (id s) (idTag s) v (extensionName s)
     (extensionVisibility s) (extensionPricing s) (updateTasksVersion s)
     (updateTasksId s) (inputFile s) (outputPath s).

Definition set_extensionName (v : option string) (s : t) : t :=
  mk (edit s) (versionNumber s) (id s) (idTag s) (publisher s) v
     (extensionVisibility s) (extensionPricing s) (updateTasksVersion s)
     (updateTasksId s) (inputFile s) (outputPath s).

Definition set_extensionVisibility (v : option string) (s : t) : t :=
  mk (edit s) (versionNumber s) (id s) (idTag s) (publisher s) (extensionName s)
     v (extensionPricing s) (updateTasksVersion s)
     (updateTasksId s) (inputFile s) (outputPath s).

Definition set_extensionPricing (v : option string) (s : t) : t :=
  mk (edit s) (versionNumber s) (id s) (idTag s) (publisher s) (extensionName s)
     (extensionVisibility s) v (updateTasksVersion s)
     (updateTasksId s) (inputFile s) (outputPath s).

Definition set_updateTasksVersion (b : bool) (s : t) : t :=
  mk (edit s) (versionNumber s) (id s) (idTag s) (publisher s) (extensionName s)
     (extensionVisibility s) (extensionPricing s) b
     (updateTasksId s) (inputFile s) (outputPath s).

Definition set_updateTasksId (b : bool) (s : t) : t :=
  mk (edit s) (versionNumber s) (id s) (idTag s) (publisher s) (extensionName s)
     (extensionVisibility s) (extensionPricing s) (updateTasksVersion s)
     b (inputFile s) (outputPath s).

(** [hasEdits]: the value of the expression of lines 294 to 301.  The
    cast to [boolean] is erased at run time, so the value is the first
    truthy operand, or the last operand. *)
Definition hasEdits (this : t) : Js.jsval :=
  Js.or
    (Js.or
      (Js.or
        (Js.or
          (Js.or
            (Js.or
              (Js.or (Js.of_field (versionNumber this)) (Js.of_field (id this)))
              (Js.of_field (idTag this)))
            (Js.of_field (publisher this)))
          (Js.of_field (extensionName this)))
        (Js.and (Js.of_field (extensionVisibility this))
                (Js.JBool (Js.ne_default (extensionVisibility this)))))
      (Js.and (Js.of_field (extensionPricing this))
              (Js.JBool (Js.ne_default (extensionPricing this)))))
    (Js.JBool (updateTasksId this)).

(** The condition of line 208:
    [versionNumber && updateTasksVersion || updateTasksId]. *)
Definition updatesTasks (this : t) : Js.jsval :=
  Js.or (Js.and (Js.of_field (versionNumber this))
                (Js.JBool (updateTasksVersion this)))
        (Js.JBool (updateTasksId this)).

(** Lines 242 to 261 on the flags text. *)
Definition editVisibility (extensionVisibility galleryFlags : string) : string :=
  let flagsEditor := GalleryFlagsEditor.new galleryFlags in
  let isPublic := (Js.str_indexOf "public" extensionVisibility >=? 0)%Z in
  let isPreview := (Js.str_indexOf "preview" extensionVisibility >=? 0)%Z in
  let flagsEditor :=
    if isPublic then GalleryFlagsEditor.addPublicFlag flagsEditor
    else GalleryFlagsEditor.removePublicFlag flagsEditor in
  let flagsEditor :=
    if isPreview then GalleryFlagsEditor.addPreviewFlag flagsEditor
    else GalleryFlagsEditor.removePreviewFlag flagsEditor in
  GalleryFlagsEditor.toString flagsEditor.

(** Lines 264 to 277 on the flags text. *)
Definition editPricing (extensionPricing galleryFlags : string) : string :=
  let flagsEditor := GalleryFlagsEditor.new galleryFlags in
  let isFree := (Js.str_indexOf "free" extensionPricing >=? 0)%Z in
  let isPaid := (Js.str_indexOf "paid" extensionPricing >=? 0)%Z in
  let flagsEditor :=
    if isFree then GalleryFlagsEditor.removePaidFlag flagsEditor
    else flagsEditor in
  let flagsEditor :=
    if isPaid then GalleryFlagsEditor.addPaidFlag flagsEditor
    else flagsEditor in
  GalleryFlagsEditor.toString flagsEditor.

(** The guard of lines 241 and 263: [f && f !== "default"]. *)
Definition requested (f : option string) : bool :=
  Js.truthy (Js.and (Js.of_field f) (Js.JBool (Js.ne_default f))).

(** Lines 236 to 278: the assignments to the parsed manifest. *)
Definition patchManifest (this : t) (m : VsixManifest) : VsixManifest :=
  let version :=
    match versionNumber this with
    | Some v => if Js.is_set (Some v) then v else _Version m
    | None => _Version m
    end in
  let id1 :=
    match id this with
    | Some v => if Js.is_set (Some v) then v else _Id m
    | None => _Id m
    end in
  let id2 :=
    match idTag this with
    | Some v => if Js.is_set (Some v) then (id1 ++ v)%string else id1
    | None => id1
    end in
  let publisher :=
    match publisher this with
    | Some v => if Js.is_set (Some v) then v else _Publisher m
    | None => _Publisher m
    end in
  let displayName :=
    match extensionName this with
    | Some v => if Js.is_set (Some v) then v else DisplayName m
    | None => DisplayName m
    end in
  let flags1 :=
    match extensionVisibility this with
    | Some v =>
        if requested (Some v) then editVisibility v (GalleryFlags m)
        else GalleryFlags m
    | None => GalleryFlags m
    end in
  let flags2 :=
    match extensionPricing this with
    | Some v => if requested (Some v) then editPricing v flags1 else flags1
    | None => flags1
    end in
  mkVsixManifest id2 version publisher displayName flags2.

Definition validateEditMode (this : t) : M unit :=
  if negb (edit this) then throw "Editing is not started" else ret tt.

(** The edit methods: the guard, then one assignment.  A method hands
    back the session as it leaves it; when it throws, no assignment was
    made. *)
Definition editVersion (version : string) (this : t) : M t :=
  validateEditMode this ;; ret (set_versionNumber (Some version) this).

Definition editExtensionName (name : string) (this : t) : M t :=
  validateEditMode this ;; ret (set_extensionName (Some name) this).

Definition editExtensionVisibility (visibility : string) (this : t) : M t :=
  validateEditMode this ;; ret (set_extensionVisibility (Some visibility) this).

Definition editExtensionPricing (pricing : string) (this : t) : M t :=
  validateEditMode this ;; ret (set_extensionPricing (Some pricing) this).

Definition editId (id : string) (this : t) : M t :=
  validateEditMode this ;; ret (set_id (Some id) this).

Definition editIdTag (tag : string) (this : t) : M t :=
  validateEditMode this ;; ret (set_idTag (Some tag) this).

Definition editPublisher (publisher : string) (this : t) : M t :=
  validateEditMode this ;; ret (set_publisher (Some publisher) this).

Definition editUpdateTasksVersion (updateTasksVersion : bool) (this : t) : M t :=
  validateEditMode this ;; ret (set_updateTasksVersion updateTasksVersion this).

Definition editUpdateTasksId (updateTasksId : bool) (this : t) : M t :=
  validateEditMode this ;; ret (set_updateTasksId updateTasksId this).

Section WithEnv.
Variable E : Env.

Definition startEdit (this : t) : M t :=
  if edit this then throw "Edit is already started"
  else Tl.debug "Editing started" ;; ret (set_edit true this).

Definition extractArchive (vsix tmpPath : string) : M unit :=
  cwd <- Tl.cwd ;;
  (if is_windows (getPlatform E) then
     sevenZip <- Tl.import_7zip_bin E ;;
     Tl.execSync E sevenZip
       ["x"; vsix; ("-o" ++ tmpPath)%string; "task.json"; "task.loc.json";
        "extension.vsixmanifest"; "extension.vsomanifest";
        "-y"; "-r"; "-bd"; "-aoa"; "-spd"]
   else
     unzip <- Tl.which E "unzip" ;;
     Tl.execSync E unzip
       ["-o"; "-C"; "-d"; tmpPath; vsix; "*/task.json"; "*/task.loc.json";
        "extension.vsixmanifest"; "extension.vsomanifest"]) ;;
  Tl.cd E cwd.

Definition createArchive (originalVsix tmpPath targetVsix : string) : M unit :=
  cwd <- Tl.cwd ;;
  (if negb (originalVsix =? targetVsix)%string
   then Tl.cp E originalVsix targetVsix "-f" else ret tt) ;;
  (if is_windows (getPlatform E) then
     sevenZip <- Tl.import_7zip_bin E ;;
     Tl.execSync E sevenZip
       ["u"; targetVsix; path_join E tmpPath "\*";
        "-r"; "-y"; "-tzip"; "-mx9"; "-bd"]
   else
     zip <- Tl.which E "zip" ;;
     Tl.cd E tmpPath ;;
     Tl.execSync E zip [path_join E cwd targetVsix; "."; "-r"; "-9"; "-f"]) ;;
  Tl.cd E cwd.

Definition editVsixManifest (this : t) (dirPath : string) : M ManifestData.t :=
  Tl.import_x2js E ;;
  let vsixManifestPath := path_join E dirPath "extension.vsixmanifest" in
  vsixManifestData <- Tl.readFile E vsixManifestPath ;;
  parsed <- Tl.x2js_xml2js E vsixManifestData ;;
  let vsixmanifest := patchManifest this parsed in
  let vsixManifestData := js2xml E vsixmanifest in
  let manifestData :=
    ManifestData.new (_Version vsixmanifest) (_Id vsixmanifest)
      (_Publisher vsixmanifest) (extensionVisibility this)
      (extensionPricing this) (DisplayName vsixmanifest) dirPath in
  Tl.writeFile E vsixManifestPath vsixManifestData ;;
  ret manifestData.

Definition endEdit (this : t) : M string :=
  validateEditMode this ;;
  if negb (Js.truthy (hasEdits this)) then ret (inputFile this) else
  Tl.temp_track ;;
  dirPath <- Tl.temp_mkdir E "vsixeditor" ;;
  Tl.debug ("Extracting files to " ++ dirPath) ;;
  extractArchive (inputFile this) dirPath ;;
  (if Js.truthy (updatesTasks this) then
     Tl.debug "Look for build tasks manifest" ;;
     let extensionManifest := path_join E dirPath "extension.vsomanifest" in
     Tl.checkUpdateTasksManifests E extensionManifest
   else ret tt) ;;
  Tl.debug "Editing VSIX manifest" ;;
  manifestData <- editVsixManifest this dirPath ;;
  outputFileName <- ManifestData.createOutputFilePath E manifestData (outputPath this) ;;
  let manifestData := ManifestData.set_outputFileName outputFileName manifestData in
  Tl.debug ("Creating final archive file at " ++ outputPath this) ;;
  createArchive (inputFile this) (ManifestData.dirPath manifestData) outputFileName ;;
  Tl.debug "Final archive file created" ;;
  ret outputFileName.

(** The public methods guarded by the edit flag, as calls on a session. *)
Inductive call : Type :=
| StartEdit
| EditVersion (version : string)
| EditExtensionName (name : string)
| EditExtensionVisibility (visibility : string)
| EditExtensionPricing (pricing : string)
| EditId (id : string)
| EditIdTag (tag : string)
| EditPublisher (publisher : string)
| EditUpdateTasksVersion (updateTasksVersion : bool)
| EditUpdateTasksId (updateTasksId : bool)
| EndEdit.

Definition is_start (c : call) : bool :=
  match c with StartEdit => true | _ => false end.

(** One call: the session afterwards and the value returned ([endEdit]
    returns a path and assigns no field of the session). *)
Definition invoke (c : call) (this : t) : M (t * option string) :=
  let unit_method (m : M t) : M (t * option string) :=
    this' <- m ;; ret (this', None) in
  match c with
  | StartEdit => unit_method (startEdit this)
  | EditVersion v => unit_method (editVersion v this)
  | EditExtensionName v => unit_method (editExtensionName v this)
  | EditExtensionVisibility v => unit_method (editExtensionVisibility v this)
  | EditExtensionPricing v => unit_method (editExtensionPricing v this)
  | EditId v => unit_method (editId v this)
  | EditIdTag v => unit_method (editIdTag v this)
  | EditPublisher v => unit_method (editPublisher v this)
  | EditUpdateTasksVersion b => unit_method (editUpdateTasksVersion b this)
  | EditUpdateTasksId b => unit_method (editUpdateTasksId b this)
  | EndEdit => path <- endEdit this ;; ret (this, Some path)
  end.

(** A script of calls on one session, stopping at the first that throws. *)
Fixpoint script (cs : list call) (this : t) : M (t * list (option string)) :=
  match cs with
  | [] => ret (this, [])
  | c :: cs' =>
      r <- invoke c this ;;
      rs <- script cs' (fst r) ;;
      ret (fst rs, snd r :: snd rs)
  end.

End WithEnv.
End VSIXEditor.

(* ================================================================== *)
(** * A concrete set of collaborators *)
(* ================================================================== *)

Module Demo.
Import Sys.

(** A manifest as the parser would hand it over. *)
Definition manifest : VsixManifest :=
  mkVsixManifest "x" "1.0" "p" "Demo" "Public".

(** A Linux agent where every tool is found and succeeds, and whose
    output directory holds the files listed in [existing]. *)
Definition env (existing : list string) (zip : exec_outcome) : Env :=
  mkEnv Linux
    (fun a b => a ++ "/" ++ b)%string
    None
    (fun tool => Some ("/usr/bin/" ++ tool)%string)
    (fun tool _ => if (tool =? "/usr/bin/zip")%string then zip else Exited 0)
    (fun _ => true)
    (fun _ _ => true)
    (fun affixes => Some ("/tmp/" ++ affixes)%string)
    (fun _ => true)
    true
    (fun _ => Some "<PackageManifest/>")
    (fun _ _ => true)
    (fun _ => Some manifest)
    (fun m => _Version m)
    (fun file => existsb (String.eqb file) existing).

Definition world0 : world := mkWorld "/agent" [].

(** A session started with its defaults, task updates switched off. *)
Definition idle : VSIXEditor.t :=
  VSIXEditor.mk true None None None None None None None true false
    "in.vsix" "out".

Definition acme : ManifestData.t :=
  ManifestData.new "1.0.0" "Tool" "Acme" None None "Acme Tool" "/tmp/vsixeditor".

End Demo.

(* ================================================================== *)
(** * Vocabulary of the properties *)
(* ================================================================== *)

Module Props.
Import Sys.

(** [c] occurs in [s]. *)
Fixpoint has_char (c : ascii) (s : string) : bool :=
  match s with
  | EmptyString => false
  | String d s' => Ascii.eqb d c || has_char c s'
  end.

(** [sub] occurs somewhere inside [s]. *)
Definition contains (sub s : string) : Prop :=
  exists before after, s = (before ++ sub ++ after)%string.

(** A flag token: not empty, no space inside. *)
Definition is_token (t : string) : bool :=
  negb (t =? "")%string && negb (has_char " " t).

(** The tokens the editor reads out of a flags text. *)
Definition tokens (galleryFlags : string) : list string :=
  GalleryFlagsEditor.flags (GalleryFlagsEditor.new galleryFlags).

(** A flags text made of distinct tokens, one space between neighbours. *)
Definition well_formed (galleryFlags : string) : Prop :=
  exists a, Forall (fun t => is_token t = true) a /\ NoDup a /\
            galleryFlags = Js.join " " a.

(** [after] is [before] without its first [x], if it has one. *)
Definition removed_first (x : string) (before after : list string) : Prop :=
  (~ In x before /\ after = before) \/
  (exists l1 l2, before = l1 ++ x :: l2 /\ ~ In x l1 /\ after = l1 ++ l2).

(** [after] is [before] with [x] appended, unless it was there. *)
Definition added_if_absent (x : string) (before after : list string) : Prop :=
  (In x before /\ after = before) \/
  (~ In x before /\ after = before ++ [x]).

(** Neither of the two visibility flags. *)
Definition other_than_visibility (t : string) : bool :=
  negb (t =? "Public")%string && negb (t =? "Preview")%string.

(** A pending text edit: a value was given and it is not empty. *)
Definition pending (f : option string) : Prop :=
  exists v, f = Some v /\ v <> "".

(** A pending visibility or pricing request: given, not empty and not
    the word "default". *)
Definition pending_request (f : option string) : Prop :=
  exists v, f = Some v /\ v <> "" /\ v <> "default".

(** Two sessions that no later step of the editor can tell apart. *)
Definition same_behaviour (E : Env) (s1 s2 : VSIXEditor.t) : Prop :=
  VSIXEditor.hasEdits s1 = VSIXEditor.hasEdits s2 /\
  VSIXEditor.updatesTasks s1 = VSIXEditor.updatesTasks s2 /\
  (forall m, VSIXEditor.patchManifest s1 m = VSIXEditor.patchManifest s2 m) /\
  (forall w, VSIXEditor.endEdit E s1 w = VSIXEditor.endEdit E s2 w).

(** How many times the task manifests update was called. *)
Fixpoint count_updates (t : list event) : nat :=
  match t with
  | [] => 0
  | CheckUpdateTasksManifests _ :: t' => S (count_updates t')
  | _ :: t' => count_updates t'
  end.

(** The trace grew, by calls other than the task manifests update. *)
Definition grows_quietly (w w' : world) : Prop :=
  exists evs, trace w' = trace w ++ evs /\ count_updates evs = 0.

(** A computation that never calls the task manifests update. *)
Definition quiet {A} (c : M A) : Prop :=
  forall w, grows_quietly w (snd (c w)).

End Props.

(* ================================================================== *)
(** * Vocabulary of the further properties *)
(* ================================================================== *)

Module MoreProps.
Import Sys.

(** The name the probe checks at round [j]: the name it was started with
    at round 0, a generation name afterwards. *)
Definition probed (m : ManifestData.t) (fileName : string) (j : nat) : string :=
  if (0 <? j)%nat then ManifestData.generationName m j else fileName.

(** The number a generation suffix stands for. *)
Definition decode_generation (gen : string) : option nat :=
  option_map Nat.of_uint (NilEmpty.uint_of_string gen).

(** Calls that put something on disk: a copy or a file write. *)
Definition is_output (e : event) : bool :=
  match e with
  | Cp _ _ _ => true
  | WriteFile _ _ => true
  | _ => false
  end.

(** The run of an archive tool. *)
Definition is_exec (e : event) : bool :=
  match e with
  | ExecSync _ _ => true
  | _ => false
  end.

(** A computation that only adds calls outside the class [P]. *)
Definition avoids (P : event -> bool) {A} (c : M A) : Prop :=
  forall w, exists evs,
    trace (snd (c w)) = trace w ++ evs /\
    forallb (fun e => negb (P e)) evs = true.

(** A computation that leaves the working directory where it was. *)
Definition keeps_cwd {A} (c : M A) : Prop :=
  forall w, cwd (snd (c w)) = cwd w.

(** A computation that always throws. *)
Definition always_throws {A} (c : M A) : Prop :=
  forall w, exists message, fst (c w) = Throw message.

(** The same collaborators, with a parser that rejects the document
    [bad] and treats every other one as before. *)
Definition rejecting (bad : string) (E : Env) : Env :=
  mkEnv (getPlatform E) (path_join E) (path7za E) (which E) (execSync E)
    (cd_ok E) (cp_ok E) (mkdir E) (updateTasks_ok E) (x2js_ok E)
    (readFile E) (writeFile_ok E)
    (fun data => if (data =? bad)%string then None else xml2js E data)
    (js2xml E) (fs_exists E).

(** The same collaborators, once the directory [gone] can no longer be
    entered. *)
Definition without_dir (gone : string) (E : Env) : Env :=
  mkEnv (getPlatform E) (path_join E) (path7za E) (which E) (execSync E)
    (fun dir => negb (dir =? gone)%string && cd_ok E dir)
    (cp_ok E) (mkdir E) (updateTasks_ok E) (x2js_ok E)
    (readFile E) (writeFile_ok E) (xml2js E) (js2xml E) (fs_exists E).

(** The canonical archive name of a manifest. *)
Definition archiveName (m : VsixManifest) : string :=
  _Publisher m ++ "." ++ _Id m ++ "-" ++ _Version m ++ ".gen.vsix".

End MoreProps.

(* ================================================================== *)
(** * Properties of the array and string primitives *)
(* ================================================================== *)

Module JsFacts.
Import Js Props.

Lemma indexOf_from_found (x : string) (a : list string) :
  In x a ->
  forall i, exists l1 l2,
    a = l1 ++ x :: l2 /\ ~ In x l1 /\
    indexOf_from i x a = (i + Z.of_nat (List.length l1))%Z.
Proof.
  induction a as [|y a IH]; intros Hin i; [contradiction|].
  simpl. destruct (String.eqb_spec y x) as [->|Hne].
  - exists [], a. repeat split; [intros []|simpl; lia].
  - destruct Hin as [Heq|Hin]; [congruence|].
    destruct (IH Hin (i + 1)%Z) as (l1 & l2 & -> & Hno & Hidx).
    exists (y :: l1), l2. repeat split.
    + intros [H|H]; [congruence|auto].
    + rewrite Hidx. simpl List.length. lia.
Qed.

Lemma indexOf_from_missing (x : string) (a : list string) :
  ~ In x a -> forall i, indexOf_from i x a = (-1)%Z.
Proof.
  induction a as [|y a IH]; intros Hno i; [reflexivity|].
  simpl. destruct (String.eqb_spec y x) as [->|Hne].
  - exfalso. apply Hno. now left.
  - apply IH. intros H. apply Hno. now right.
Qed.

Lemma indexOf_negative (x : string) (a : list string) :
  (indexOf x a <? 0)%Z = true <-> ~ In x a.
Proof.
  unfold indexOf. split.
  - intros Hlt Hin.
    destruct (indexOf_from_found x a Hin 0%Z) as (l1 & l2 & _ & _ & Hidx).
    rewrite Hidx in Hlt. apply Z.ltb_lt in Hlt. lia.
  - intros Hno. now rewrite indexOf_from_missing.
Qed.

Lemma splice1_middle (x : string) (l1 l2 : list string) :
  splice1 (List.length l1) (l1 ++ x :: l2) = l1 ++ l2.
Proof. induction l1 as [|y l1 IH]; simpl; [reflexivity|now rewrite IH]. Qed.

Lemma has_char_append (c : ascii) (s1 s2 : string) :
  has_char c (s1 ++ s2) = has_char c s1 || has_char c s2.
Proof.
  induction s1 as [|d s1 IH]; simpl; [reflexivity|].
  now rewrite IH, orb_assoc.
Qed.

Lemma split_not_nil (sep : ascii) (s : string) : split sep s <> [].
Proof.
  destruct s as [|c s]; simpl; [discriminate|].
  destruct (Ascii.eqb c sep); [discriminate|].
  destruct (split sep s); discriminate.
Qed.

(** A piece without the separator splits into itself. *)
Lemma split_piece (sep : ascii) (s : string) :
  has_char sep s = false -> split sep s = [s].
Proof.
  induction s as [|c s IH]; simpl; [reflexivity|].
  intros H. apply orb_false_iff in H as [Hc Hs].
  rewrite Hc, (IH Hs). reflexivity.
Qed.

Lemma split_cons (sep : ascii) (s rest : string) :
  has_char sep s = false ->
  split sep (s ++ String sep rest) = s :: split sep rest.
Proof.
  induction s as [|c s IH]; simpl; intros H.
  - now rewrite Ascii.eqb_refl.
  - apply orb_false_iff in H as [Hc Hs].
    rewrite Hc, (IH Hs). reflexivity.
Qed.

(** [split] undoes [join] on pieces that do not hold the separator. *)
Lemma split_join (sep : ascii) (a : list string) :
  a <> [] ->
  Forall (fun piece => has_char sep piece = false) a ->
  split sep (join (String sep EmptyString) a) = a.
Proof.
  induction a as [|x a IH]; intros Hne Hall; [congruence|].
  inversion Hall as [|? ? Hx Ha]; subst.
  destruct a as [|y a].
  - simpl. now apply split_piece.
  - change (join (String sep "") (x :: y :: a))
      with (x ++ String sep (join (String sep "") (y :: a)))%string.
    rewrite split_cons by assumption.
    f_equal. apply IH; [discriminate|assumption].
Qed.

(** No piece of a split holds the separator. *)
Lemma split_pieces (sep : ascii) (s : string) :
  Forall (fun piece => has_char sep piece = false) (split sep s).
Proof.
  induction s as [|c s IH]; simpl.
  - constructor; [reflexivity|constructor].
  - destruct (Ascii.eqb c sep) eqn:Hc.
    + constructor; [reflexivity|assumption].
    + destruct (split sep s) as [|piece pieces].
      * constructor; [simpl; now rewrite Hc|constructor].
      * inversion IH; subst. constructor; [simpl; now rewrite Hc|assumption].
Qed.

Lemma substring_prefix (sub s : string) :
  substring 0 (length sub) s = sub -> exists after, s = (sub ++ after)%string.
Proof.
  revert s. induction sub as [|d sub IH]; intros s H.
  - exists s. reflexivity.
  - destruct s as [|c s]; simpl in H; [discriminate|].
    injection H as -> H.
    destruct (IH s H) as (after & ->).
    exists after. reflexivity.
Qed.

Lemma substring_contains (s sub : string) (m : nat) :
  substring m (length sub) s = sub -> contains sub s.
Proof.
  revert s. induction m as [|m IH]; intros s H.
  - destruct (substring_prefix sub s H) as (after & ->).
    exists "", after. reflexivity.
  - destruct s as [|c s].
    + destruct sub; simpl in H; [|discriminate].
      exists "", "". reflexivity.
    + simpl in H. destruct (IH s H) as (before & after & ->).
      exists (String c before), after. reflexivity.
Qed.

Lemma substring_at (before sub after : string) :
  substring (length before) (length sub) (before ++ sub ++ after) = sub.
Proof.
  induction before as [|c before IH]; simpl.
  - revert after. induction sub as [|d sub IHsub]; intros after; simpl.
    + now destruct after.
    + now rewrite IHsub.
  - destruct (length sub); exact IH.
Qed.

(** [indexOf(sub) >= 0] is the test for an occurrence of [sub]. *)
Lemma str_indexOf_contains (sub s : string) :
  (str_indexOf sub s >=? 0)%Z = true <-> contains sub s.
Proof.
  unfold str_indexOf. split.
  - destruct (index 0 sub s) as [m|] eqn:Hidx.
    + intros _. apply substring_contains with (m := m).
      now apply index_correct1 with (n := 0).
    + intros H. apply Z.geb_le in H. lia.
  - intros (before & after & ->).
    destruct (index 0 sub (before ++ sub ++ after)) as [m|] eqn:Hidx.
    + apply Z.geb_le. lia.
    + exfalso. destruct sub as [|d sub].
      * apply index_correct4 in Hidx. lia.
      * apply (index_correct3 0 (length before) _ _ Hidx);
          [discriminate|lia|apply substring_at].
Qed.

End JsFacts.

(* ================================================================== *)
(** * The flag editor *)
(* ================================================================== *)

Module FlagsFacts.
Import Js Props JsFacts GalleryFlagsEditor.

Lemma eta (e : t) : mk (flags e) = e.
Proof. now destruct e. Qed.

(** Both branches of the constructor agree with the filtered split. *)
Lemma new_flags (g : string) : flags (new g) = filter keep (split " " g).
Proof. unfold new. destruct g as [|c g]; reflexivity. Qed.

Lemma filter_keep_tokens (a : list string) :
  Forall (fun t => is_token t = true) a -> filter keep a = a.
Proof.
  induction 1 as [|x a Hx _ IH]; simpl; [reflexivity|].
  unfold is_token in Hx. apply andb_true_iff in Hx as [Hx _].
  rewrite IH. unfold keep. now rewrite Hx.
Qed.

Lemma tokens_are_tokens (g : string) :
  Forall (fun t => is_token t = true) (tokens g).
Proof.
  unfold tokens. rewrite new_flags.
  apply Forall_forall. intros x Hx. apply filter_In in Hx as [Hin Hkeep].
  unfold is_token. unfold keep in Hkeep. rewrite Hkeep. simpl.
  pose proof (split_pieces " " g) as Hall.
  rewrite Forall_forall in Hall. now rewrite (Hall x Hin).
Qed.

(** Reading back a serialized token list gives the list. *)
Lemma tokens_join (a : list string) :
  Forall (fun t => is_token t = true) a -> tokens (join " " a) = a.
Proof.
  intros Hall. unfold tokens. rewrite new_flags.
  destruct a as [|x a]; [reflexivity|].
  rewrite split_join.
  - now apply filter_keep_tokens.
  - discriminate.
  - eapply Forall_impl; [|exact Hall]. intros t Ht. simpl in Ht.
    unfold is_token in Ht. apply andb_true_iff in Ht as [_ Ht].
    now apply negb_true_iff in Ht.
Qed.

Lemma addFlag_spec (flag : string) (e : t) :
  added_if_absent flag (flags e) (flags (addFlag flag e)).
Proof.
  unfold addFlag, added_if_absent.
  destruct (indexOf flag (flags e) <? 0)%Z eqn:H.
  - right. split; [now apply indexOf_negative|reflexivity].
  - left. split; [|reflexivity].
    destruct (in_dec string_dec flag (flags e)) as [Hin|Hno]; [assumption|].
    apply indexOf_negative in Hno. congruence.
Qed.

Lemma removeFlag_spec (flag : string) (e : t) :
  removed_first flag (flags e) (flags (removeFlag flag e)).
Proof.
  unfold removeFlag, removed_first.
  destruct (in_dec string_dec flag (flags e)) as [Hin|Hno].
  - right. unfold indexOf.
    destruct (indexOf_from_found flag (flags e) Hin 0%Z)
      as (l1 & l2 & Heq & Hno & Hidx).
    rewrite Hidx. exists l1, l2.
    replace (0 + Z.of_nat (List.length l1) >=? 0)%Z with true
      by (symmetry; apply Z.geb_le; lia).
    replace (Z.to_nat (0 + Z.of_nat (List.length l1))) with (List.length l1) by lia.
    simpl flags. rewrite Heq. rewrite splice1_middle. auto.
  - left. unfold indexOf. rewrite indexOf_from_missing by assumption.
    simpl. auto.
Qed.

Lemma addFlag_present (flag : string) (e : t) :
  In flag (flags e) -> addFlag flag e = e.
Proof.
  intros Hin. unfold addFlag.
  destruct (indexOf flag (flags e) <? 0)%Z eqn:H; [|reflexivity].
  apply indexOf_negative in H. contradiction.
Qed.

Lemma addFlag_In (flag : string) (e : t) : In flag (flags (addFlag flag e)).
Proof.
  destruct (addFlag_spec flag e) as [[Hin ->]|[_ ->]]; [assumption|].
  apply in_or_app. right. now left.
Qed.

Lemma removeFlag_absent (flag : string) (e : t) :
  ~ In flag (flags e) -> removeFlag flag e = e.
Proof.
  intros Hno. unfold removeFlag, indexOf.
  now rewrite indexOf_from_missing.
Qed.

Lemma addFlag_tokens (flag : string) (e : t) :
  is_token flag = true ->
  Forall (fun t => is_token t = true) (flags e) ->
  Forall (fun t => is_token t = true) (flags (addFlag flag e)).
Proof.
  intros Hflag Hall.
  destruct (addFlag_spec flag e) as [[_ ->]|[_ ->]]; [assumption|].
  apply Forall_app. split; [assumption|now constructor].
Qed.

Lemma removeFlag_tokens (flag : string) (e : t) :
  Forall (fun t => is_token t = true) (flags e) ->
  Forall (fun t => is_token t = true) (flags (removeFlag flag e)).
Proof.
  intros Hall.
  destruct (removeFlag_spec flag e) as [[_ ->]|(l1 & l2 & Heq & _ & ->)];
    [assumption|].
  rewrite Heq in Hall. apply Forall_app in Hall as [H1 H2].
  inversion H2; subst. apply Forall_app. now split.
Qed.

(** C9: adding a token that is already present leaves the token list as it
    was, so adding twice is adding once; removing a token that is absent
    leaves the list as it was; and a flags text made of distinct tokens
    separated by single spaces is read and serialized back to itself. *)
Theorem flag_editor_laws :
  (forall (e : t) (flag : string), In flag (flags e) -> addFlag flag e = e) /\
  (forall (e : t) (flag : string),
      addFlag flag (addFlag flag e) = addFlag flag e) /\
  (forall (e : t) (flag : string), ~ In flag (flags e) -> removeFlag flag e = e) /\
  (forall s : string, well_formed s -> toString (new s) = s).
Proof.
  split; [intros e flag; apply addFlag_present|].
  split; [intros e flag; apply addFlag_present, addFlag_In|].
  split; [intros e flag; apply removeFlag_absent|].
  intros s (a & Hall & _ & ->).
  unfold toString. fold (tokens (join " " a)).
  now rewrite tokens_join.
Qed.

Lemma flag_editor_laws_witness :
  addFlag "Paid" (new "Public Paid") = new "Public Paid" /\
  removeFlag "Preview" (new "Public Paid") = new "Public Paid" /\
  toString (new "Public Paid") = "Public Paid".
Proof.
  destruct flag_editor_laws as (Hadd & _ & Hremove & Hround).
  split; [|split].
  - apply Hadd. simpl. auto.
  - apply Hremove. simpl. intros [H|[H|[]]]; discriminate.
  - apply Hround. exists ["Public"; "Paid"]. repeat split.
    + repeat constructor.
    + repeat constructor; simpl; intros H; intuition discriminate.
Defined.

End FlagsFacts.

(* ================================================================== *)
(** * The gallery flags of the patched manifest *)
(* ================================================================== *)

Module PatchFacts.
Import Js Props JsFacts GalleryFlagsEditor FlagsFacts.

Lemma removed_first_In (x y : string) (b a : list string) :
  removed_first x b a -> y <> x -> (In y a <-> In y b).
Proof.
  intros [[_ ->]|(l1 & l2 & -> & _ & ->)] Hne; [tauto|].
  rewrite !in_app_iff. simpl. intuition congruence.
Qed.

Lemma added_if_absent_In (x y : string) (b a : list string) :
  added_if_absent x b a -> y <> x -> (In y a <-> In y b).
Proof.
  intros [[_ ->]|[_ ->]] Hne; [tauto|].
  rewrite in_app_iff. simpl. intuition congruence.
Qed.

Lemma removed_first_filter (f : string -> bool) (x : string) (b a : list string) :
  removed_first x b a -> f x = false -> filter f a = filter f b.
Proof.
  intros [[_ ->]|(l1 & l2 & -> & _ & ->)] Hf; [reflexivity|].
  rewrite !filter_app. simpl. now rewrite Hf.
Qed.

Lemma added_if_absent_filter (f : string -> bool) (x : string) (b a : list string) :
  added_if_absent x b a -> f x = false -> filter f a = filter f b.
Proof.
  intros [[_ ->]|[_ ->]] Hf; [reflexivity|].
  rewrite filter_app. simpl. rewrite Hf. apply app_nil_r.
Qed.

Lemma removed_first_count (x y : string) (b a : list string) :
  removed_first x b a -> y <> x ->
  count_occ string_dec a y = count_occ string_dec b y.
Proof.
  intros [[_ ->]|(l1 & l2 & -> & _ & ->)] Hne; [reflexivity|].
  rewrite !count_occ_app. simpl.
  destruct (string_dec x y); [congruence|reflexivity].
Qed.

Lemma added_if_absent_count (x y : string) (b a : list string) :
  added_if_absent x b a -> y <> x ->
  count_occ string_dec a y = count_occ string_dec b y.
Proof.
  intros [[_ ->]|[_ ->]] Hne; [reflexivity|].
  rewrite count_occ_app. simpl.
  destruct (string_dec x y); [congruence|lia].
Qed.

(** Removing the first of at most one occurrence leaves none. *)
Lemma removed_first_gone (x : string) (b a : list string) :
  removed_first x b a -> count_occ string_dec b x <= 1 -> ~ In x a.
Proof.
  intros [[Hno ->]|(l1 & l2 & -> & Hno & ->)] Hcount; [assumption|].
  rewrite count_occ_app in Hcount. simpl in Hcount.
  destruct (string_dec x x); [|congruence].
  intros Hin. apply in_app_or in Hin as [Hin|Hin]; [contradiction|].
  apply (count_occ_In string_dec) in Hin. lia.
Qed.

Lemma added_if_absent_here (x : string) (b a : list string) :
  added_if_absent x b a -> In x a.
Proof.
  intros [[Hin ->]|[_ ->]]; [assumption|].
  apply in_or_app. right. now left.
Qed.

(** The tokens of the text that [editVisibility] writes back. *)
Lemma tokens_editVisibility (v g : string) :
  tokens (VSIXEditor.editVisibility v g) =
  flags
    ((if (str_indexOf "preview" v >=? 0)%Z
      then addPreviewFlag else removePreviewFlag)
       ((if (str_indexOf "public" v >=? 0)%Z
         then addPublicFlag else removePublicFlag) (new g))).
Proof.
  unfold VSIXEditor.editVisibility, toString.
  pose proof (tokens_are_tokens g) as Hg. unfold tokens in Hg.
  destruct (str_indexOf "public" v >=? 0)%Z,
           (str_indexOf "preview" v >=? 0)%Z;
    apply tokens_join;
    unfold addPublicFlag, removePublicFlag, addPreviewFlag, removePreviewFlag;
    repeat first [apply addFlag_tokens; [reflexivity|]
                 |apply removeFlag_tokens]; exact Hg.
Qed.

(** The tokens of the text that [editPricing] writes back. *)
Lemma tokens_editPricing (p g : string) :
  tokens (VSIXEditor.editPricing p g) =
  flags
    ((if (str_indexOf "paid" p >=? 0)%Z then addPaidFlag else fun e => e)
       ((if (str_indexOf "free" p >=? 0)%Z then removePaidFlag else fun e => e)
          (new g))).
Proof.
  unfold VSIXEditor.editPricing, toString.
  pose proof (tokens_are_tokens g) as Hg. unfold tokens in Hg.
  destruct (str_indexOf "free" p >=? 0)%Z,
           (str_indexOf "paid" p >=? 0)%Z;
    apply tokens_join;
    unfold addPaidFlag, removePaidFlag;
    repeat first [apply addFlag_tokens; [reflexivity|]
                 |apply removeFlag_tokens]; exact Hg.
Qed.

Lemma requested_true (v : string) :
  v <> "" -> v <> "default" -> VSIXEditor.requested (Some v) = true.
Proof.
  intros H1 H2. unfold VSIXEditor.requested, Js.and. simpl.
  apply String.eqb_neq in H1, H2. now rewrite H1, H2.
Qed.

(** The pricing step works on the text the earlier steps left. *)
Lemma patch_pricing (this : VSIXEditor.t) (m : VsixManifest) (p : string) :
  VSIXEditor.extensionPricing this = Some p ->
  VSIXEditor.requested (Some p) = true ->
  GalleryFlags (VSIXEditor.patchManifest this m) =
  VSIXEditor.editPricing p
    (GalleryFlags
       (VSIXEditor.patchManifest (VSIXEditor.set_extensionPricing None this) m)).
Proof.
  intros Hp Hreq. unfold VSIXEditor.patchManifest. simpl.
  rewrite Hp, Hreq. reflexivity.
Qed.

(** The tokens of the patched manifest, when visibility is requested. *)
Lemma patch_visibility_tokens (this : VSIXEditor.t) (m : VsixManifest) (v : string) :
  VSIXEditor.extensionVisibility this = Some v ->
  VSIXEditor.requested (Some v) = true ->
  let seen := tokens (VSIXEditor.editVisibility v (GalleryFlags m)) in
  let after := tokens (GalleryFlags (VSIXEditor.patchManifest this m)) in
  (forall y, y <> "Paid" -> (In y after <-> In y seen)) /\
  (VSIXEditor.requested (VSIXEditor.extensionPricing this) = false ->
   after = seen).
Proof.
  intros Hv Hreq seen after. subst seen after.
  unfold VSIXEditor.patchManifest. simpl. rewrite Hv, Hreq.
  destruct (VSIXEditor.extensionPricing this) as [p|]; [|split; [tauto|auto]].
  destruct (VSIXEditor.requested (Some p)); [|split; [tauto|auto]].
  split; [|discriminate].
  intros y Hy. rewrite tokens_editPricing.
  fold (tokens (VSIXEditor.editVisibility v (GalleryFlags m))).
  set (e0 := new (VSIXEditor.editVisibility v (GalleryFlags m))).
  change (tokens (VSIXEditor.editVisibility v (GalleryFlags m))) with (flags e0).
  set (e1 := (if (str_indexOf "free" p >=? 0)%Z
              then removePaidFlag else fun e => e) e0).
  assert (H1 : In y (flags e1) <-> In y (flags e0)).
  { subst e1. destruct (str_indexOf "free" p >=? 0)%Z; [|tauto].
    apply (removed_first_In "Paid"); [apply removeFlag_spec|assumption]. }
  rewrite <- H1.
  destruct (str_indexOf "paid" p >=? 0)%Z; [|tauto].
  apply (added_if_absent_In "Paid"); [apply addFlag_spec|assumption].
Qed.
(** Forcing one flag to be present or absent: what it does to that flag
    and to every other token. *)
Lemma force_flag (b : bool) (x : string) (e : t) :
  count_occ string_dec (flags e) x <= 1 ->
  let e' := (if b then addFlag x else removeFlag x) e in
  (In x (flags e') <-> b = true) /\
  (forall y, y <> x ->
     (In y (flags e') <-> In y (flags e)) /\
     count_occ string_dec (flags e') y = count_occ string_dec (flags e) y) /\
  (forall f : string -> bool, f x = false ->
     filter f (flags e') = filter f (flags e)).
Proof.
  intros Hcount e'. subst e'. destruct b.
  - pose proof (addFlag_spec x e) as Hspec. split; [|split].
    + split; [reflexivity|]. intros _. exact (added_if_absent_here _ _ _ Hspec).
    + intros y Hy. split.
      * exact (added_if_absent_In _ _ _ _ Hspec Hy).
      * exact (added_if_absent_count _ _ _ _ Hspec Hy).
    + intros f Hf. exact (added_if_absent_filter _ _ _ _ Hspec Hf).
  - pose proof (removeFlag_spec x e) as Hspec. split; [|split].
    + split; [|discriminate].
      intros Hin. exfalso. exact (removed_first_gone _ _ _ Hspec Hcount Hin).
    + intros y Hy. split.
      * exact (removed_first_In _ _ _ _ Hspec Hy).
      * exact (removed_first_count _ _ _ _ Hspec Hy).
    + intros f Hf. exact (removed_first_filter _ _ _ _ Hspec Hf).
Qed.

(** C6, amended: for a visibility request that is set and is not
    "default", and a starting flags text in which "Public" and "Preview"
    each occur at most once, the patched flags hold "Public" exactly when
    the request contains "public" and "Preview" exactly when it contains
    "preview"; the text the visibility step writes keeps every other
    token, in its order, and is the patched text when no pricing edit is
    requested as well.  Flags "Paid" with request "private" give "Paid";
    empty flags with request "publicpreview" give "Public Preview". *)
Theorem visibility_rewrite :
  (forall (this : VSIXEditor.t) (m : VsixManifest) (v : string),
     VSIXEditor.extensionVisibility this = Some v ->
     v <> "" -> v <> "default" ->
     count_occ string_dec (tokens (GalleryFlags m)) "Public" <= 1 ->
     count_occ string_dec (tokens (GalleryFlags m)) "Preview" <= 1 ->
     let seen := tokens (VSIXEditor.editVisibility v (GalleryFlags m)) in
     let after := tokens (GalleryFlags (VSIXEditor.patchManifest this m)) in
     (In "Public" after <-> contains "public" v) /\
     (In "Preview" after <-> contains "preview" v) /\
     filter other_than_visibility seen =
       filter other_than_visibility (tokens (GalleryFlags m)) /\
     (VSIXEditor.requested (VSIXEditor.extensionPricing this) = false ->
      after = seen)) /\
  GalleryFlags
    (VSIXEditor.patchManifest
       (VSIXEditor.set_extensionVisibility (Some "private") Demo.idle)
       (mkVsixManifest "x" "1.0" "p" "Demo" "Paid")) = "Paid" /\
  GalleryFlags
    (VSIXEditor.patchManifest
       (VSIXEditor.set_extensionVisibility (Some "publicpreview") Demo.idle)
       (mkVsixManifest "x" "1.0" "p" "Demo" "")) = "Public Preview".
Proof.
  split; [|split; reflexivity].
  intros this m v Hv Hset Hdef Hpub Hprev seen after.
  pose proof (requested_true v Hset Hdef) as Hreq.
  destruct (patch_visibility_tokens this m v Hv Hreq) as [Hsame Hexact].
  fold after in Hsame, Hexact. fold seen in Hsame, Hexact.
  assert (Hseen : seen = tokens (VSIXEditor.editVisibility v (GalleryFlags m)))
    by reflexivity.
  rewrite tokens_editVisibility in Hseen. clearbody seen. subst seen.
  unfold addPublicFlag, removePublicFlag, addPreviewFlag, removePreviewFlag
    in Hsame, Hexact |- *.
  set (e0 := new (GalleryFlags m)) in *.
  change (tokens (GalleryFlags m)) with (flags e0) in *.
  destruct (force_flag (str_indexOf "public" v >=? 0)%Z "Public" e0 Hpub)
    as (Hp1 & Hp2 & Hp3).
  set (e1 := (if (str_indexOf "public" v >=? 0)%Z
              then addFlag "Public" else removeFlag "Public") e0) in *.
  assert (Hprev1 : count_occ string_dec (flags e1) "Preview" <= 1).
  { destruct (Hp2 "Preview") as [_ Hc]; [discriminate|]. now rewrite Hc. }
  destruct (force_flag (str_indexOf "preview" v >=? 0)%Z "Preview" e1 Hprev1)
    as (Hq1 & Hq2 & Hq3).
  set (e2 := (if (str_indexOf "preview" v >=? 0)%Z
              then addFlag "Preview" else removeFlag "Preview") e1) in *.
  split; [|split; [|split]].
  - rewrite Hsame by discriminate.
    destruct (Hq2 "Public") as [Hin _]; [discriminate|].
    rewrite Hin, Hp1. apply str_indexOf_contains.
  - rewrite Hsame by discriminate.
    rewrite Hq1. apply str_indexOf_contains.
  - rewrite Hq3 by reflexivity. now rewrite Hp3.
  - exact Hexact.
Qed.

Lemma visibility_rewrite_witness :
  let this := VSIXEditor.set_extensionVisibility (Some "preview") Demo.idle in
  let seen := tokens (VSIXEditor.editVisibility "preview" "Public") in
  let after := tokens (GalleryFlags (VSIXEditor.patchManifest this Demo.manifest)) in
  (In "Public" after <-> contains "public" "preview") /\
  (In "Preview" after <-> contains "preview" "preview") /\
  filter other_than_visibility seen =
    filter other_than_visibility (tokens (GalleryFlags Demo.manifest)) /\
  (VSIXEditor.requested (VSIXEditor.extensionPricing this) = false ->
   after = seen).
Proof.
  apply (proj1 visibility_rewrite
           (VSIXEditor.set_extensionVisibility (Some "preview") Demo.idle)
           Demo.manifest "preview").
  - reflexivity.
  - discriminate.
  - discriminate.
  - vm_compute. lia.
  - vm_compute. lia.
Defined.

(** C6 as stated fails when the starting flags repeat a token: only the
    first "Public" is removed, so "Public" stays although the request does
    not contain "public". *)
Lemma visibility_rewrite_counterexample :
  let this := VSIXEditor.set_extensionVisibility (Some "private") Demo.idle in
  let after :=
    GalleryFlags
      (VSIXEditor.patchManifest this
         (mkVsixManifest "x" "1.0" "p" "Demo" "Public Public")) in
  after = "Public" /\ In "Public" (tokens after) /\
  ~ contains "public" "private".
Proof.
  split; [reflexivity|]. split; [simpl; auto|].
  intros H. apply str_indexOf_contains in H. discriminate.
Qed.

(** C7, amended: for a pricing request that is set and is not "default",
    and starting flags in which "Paid" occurs at most once: when the
    request contains "free" the "Paid" token is removed if there is one,
    and none is left; then when it contains "paid" the token "Paid" is
    appended if there is none, and it is there at the end; a request with
    neither word leaves the tokens as they were; the tokens other than
    "Paid" are never touched.  The starting tokens are those the earlier
    steps of the patch left.  Flags "Public Paid" with request "free"
    give "Public"; flags "Public" with request "paid" give
    "Public Paid". *)
Theorem pricing_rewrite :
  (forall (this : VSIXEditor.t) (m : VsixManifest) (p : string),
     VSIXEditor.extensionPricing this = Some p ->
     p <> "" -> p <> "default" ->
     let before :=
       tokens (GalleryFlags
                 (VSIXEditor.patchManifest
                    (VSIXEditor.set_extensionPricing None this) m)) in
     let after := tokens (GalleryFlags (VSIXEditor.patchManifest this m)) in
     count_occ string_dec before "Paid" <= 1 ->
     (exists mid,
        (contains "free" p ->
         removed_first "Paid" before mid /\ ~ In "Paid" mid) /\
        (~ contains "free" p -> mid = before) /\
        (contains "paid" p ->
         added_if_absent "Paid" mid after /\ In "Paid" after) /\
        (~ contains "paid" p -> after = mid)) /\
     (contains "free" p -> ~ contains "paid" p -> ~ In "Paid" after) /\
     (contains "paid" p -> In "Paid" after) /\
     (~ contains "free" p -> ~ contains "paid" p -> after = before) /\
     filter (fun t => negb (t =? "Paid")) after
     = filter (fun t => negb (t =? "Paid")) before) /\
  GalleryFlags
    (VSIXEditor.patchManifest
       (VSIXEditor.set_extensionPricing (Some "free") Demo.idle)
       (mkVsixManifest "x" "1.0" "p" "Demo" "Public Paid")) = "Public" /\
  GalleryFlags
    (VSIXEditor.patchManifest
       (VSIXEditor.set_extensionPricing (Some "paid") Demo.idle)
       (mkVsixManifest "x" "1.0" "p" "Demo" "Public")) = "Public Paid".
Proof.
  split; [|split; reflexivity].
  intros this m p Hp Hset Hdef before after Hcount. subst after.
  rewrite (patch_pricing this m p Hp (requested_true p Hset Hdef)).
  set (g := GalleryFlags
              (VSIXEditor.patchManifest
                 (VSIXEditor.set_extensionPricing None this) m)) in *.
  rewrite tokens_editPricing. subst before.
  change (tokens g) with (flags (new g)) in *.
  set (e0 := new g) in *.
  pose proof (str_indexOf_contains "free" p) as Hfree.
  pose proof (str_indexOf_contains "paid" p) as Hpaid.
  pose proof (removeFlag_spec "Paid" e0) as Hrem.
  pose proof (removed_first_gone _ _ _ Hrem Hcount) as Hgone.
  unfold addPaidFlag, removePaidFlag.
  destruct (str_indexOf "free" p >=? 0)%Z, (str_indexOf "paid" p >=? 0)%Z.
  - assert (Cf : contains "free" p) by now apply Hfree.
    assert (Cp : contains "paid" p) by now apply Hpaid.
    split; [exists (flags (removeFlag "Paid" e0))|].
    + split; [auto|]. split; [tauto|].
      split; [|tauto]. intros _. split; [apply addFlag_spec|apply addFlag_In].
    + split; [tauto|]. split; [intros _; apply addFlag_In|]. split; [tauto|].
      rewrite (added_if_absent_filter _ "Paid" _ _ (addFlag_spec _ _) eq_refl).
      exact (removed_first_filter _ "Paid" _ _ Hrem eq_refl).
  - assert (Cf : contains "free" p) by now apply Hfree.
    assert (Cp : ~ contains "paid" p)
      by (intros H; apply Hpaid in H; discriminate).
    split; [exists (flags (removeFlag "Paid" e0))|].
    + split; [auto|]. split; [tauto|]. split; [tauto|]. reflexivity.
    + split; [auto|]. split; [tauto|]. split; [tauto|].
      exact (removed_first_filter _ "Paid" _ _ Hrem eq_refl).
  - assert (Cf : ~ contains "free" p)
      by (intros H; apply Hfree in H; discriminate).
    assert (Cp : contains "paid" p) by now apply Hpaid.
    split; [exists (flags e0)|].
    + split; [tauto|]. split; [reflexivity|].
      split; [|tauto]. intros _. split; [apply addFlag_spec|apply addFlag_In].
    + split; [tauto|]. split; [intros _; apply addFlag_In|]. split; [tauto|].
      exact (added_if_absent_filter _ "Paid" _ _ (addFlag_spec _ _) eq_refl).
  - assert (Cf : ~ contains "free" p)
      by (intros H; apply Hfree in H; discriminate).
    assert (Cp : ~ contains "paid" p)
      by (intros H; apply Hpaid in H; discriminate).
    split; [exists (flags e0)|].
    + split; [tauto|]. split; [reflexivity|]. split; [tauto|]. reflexivity.
    + split; [tauto|]. split; [tauto|]. split; reflexivity.
Qed.

Lemma pricing_rewrite_witness :
  let this := VSIXEditor.set_extensionPricing (Some "free") Demo.idle in
  let m := mkVsixManifest "x" "1.0" "p" "Demo" "Public Paid" in
  let after := tokens (GalleryFlags (VSIXEditor.patchManifest this m)) in
  (exists mid,
     (contains "free" "free" ->
      removed_first "Paid" ["Public"; "Paid"] mid /\ ~ In "Paid" mid) /\
     (~ contains "free" "free" -> mid = ["Public"; "Paid"]) /\
     (contains "paid" "free" ->
      added_if_absent "Paid" mid after /\ In "Paid" after) /\
     (~ contains "paid" "free" -> after = mid)) /\
  (contains "free" "free" -> ~ contains "paid" "free" -> ~ In "Paid" after) /\
  (contains "paid" "free" -> In "Paid" after) /\
  (~ contains "free" "free" -> ~ contains "paid" "free" ->
   after = ["Public"; "Paid"]) /\
  filter (fun t => negb (t =? "Paid")) after
  = filter (fun t => negb (t =? "Paid")) ["Public"; "Paid"].
Proof.
  apply (proj1 pricing_rewrite
           (VSIXEditor.set_extensionPricing (Some "free") Demo.idle)
           (mkVsixManifest "x" "1.0" "p" "Demo" "Public Paid") "free").
  - reflexivity.
  - discriminate.
  - discriminate.
  - vm_compute. lia.
Defined.

(** C7 as stated fails when the starting flags repeat "Paid": only the
    first one is removed, so "Paid" stays although the request contains
    "free" and does not contain "paid". *)
Lemma pricing_rewrite_counterexample :
  let this := VSIXEditor.set_extensionPricing (Some "free") Demo.idle in
  let after :=
    GalleryFlags
      (VSIXEditor.patchManifest this
         (mkVsixManifest "x" "1.0" "p" "Demo" "Paid Paid")) in
  after = "Paid" /\ In "Paid" (tokens after) /\
  contains "free" "free" /\ ~ contains "paid" "free".
Proof.
  split; [reflexivity|]. split; [simpl; auto|]. split.
  - exists "", "". reflexivity.
  - intros H. apply str_indexOf_contains in H. discriminate.
Qed.

End PatchFacts.

(* ================================================================== *)
(** * The session: pending edits and the edit flag *)
(* ================================================================== *)

Module SessionFacts.
Import Sys Js Props VSIXEditor.

Lemma truthy_or (a b : jsval) : truthy (Js.or a b) = truthy a || truthy b.
Proof. unfold Js.or. destruct (truthy a) eqn:H; [now rewrite H|reflexivity]. Qed.

Lemma truthy_and (a b : jsval) : truthy (Js.and a b) = truthy a && truthy b.
Proof. unfold Js.and. destruct (truthy a) eqn:H; [reflexivity|now rewrite H]. Qed.

Lemma is_set_pending (f : option string) : is_set f = true <-> pending f.
Proof.
  unfold is_set, pending. destruct f as [v|]; simpl.
  - rewrite negb_true_iff, String.eqb_neq. split.
    + intros H. now exists v.
    + now intros (v' & [= <-] & H).
  - split; [discriminate|]. now intros (v & H & _).
Qed.

Lemma requested_pending (f : option string) :
  requested f = true <-> pending_request f.
Proof.
  unfold requested, pending_request. rewrite truthy_and.
  destruct f as [v|]; simpl.
  - rewrite andb_true_iff, !negb_true_iff, !String.eqb_neq. split.
    + intros [H1 H2]. now exists v.
    + now intros (v' & [= <-] & H).
  - split; [discriminate|]. now intros (v & H & _).
Qed.

Lemma hasEdits_truthy (this : t) :
  truthy (hasEdits this) =
  is_set (versionNumber this) || is_set (id this) || is_set (idTag this)
  || is_set (publisher this) || is_set (extensionName this)
  || requested (extensionVisibility this)
  || requested (extensionPricing this) || updateTasksId this.
Proof. unfold hasEdits. now rewrite !truthy_or. Qed.

Lemma updatesTasks_truthy (this : t) :
  truthy (updatesTasks this) =
  is_set (versionNumber this) && updateTasksVersion this || updateTasksId this.
Proof. unfold updatesTasks. now rewrite truthy_or, truthy_and. Qed.

(** C4: the value of [hasEdits] is truthy exactly when a version, id, id
    tag, publisher or extension name is pending, or a visibility or a
    pricing request other than "default" is, or [updateTasksId] is true;
    [updateTasksVersion] plays no part, and a fresh session with
    [updateTasksId] switched off has no edits. *)
Theorem hasEdits_iff (this : t) :
  (truthy (hasEdits this) = true <->
     pending (versionNumber this) \/ pending (id this) \/
     pending (idTag this) \/ pending (publisher this) \/
     pending (extensionName this) \/
     pending_request (extensionVisibility this) \/
     pending_request (extensionPricing this) \/
     updateTasksId this = true) /\
  (forall b, hasEdits (set_updateTasksVersion b this) = hasEdits this) /\
  (forall inputFile outputPath b,
     truthy (hasEdits (set_updateTasksVersion b
               (set_updateTasksId false
                  (set_edit true (new inputFile outputPath))))) = false).
Proof.
  split; [|split; reflexivity].
  rewrite hasEdits_truthy, !orb_true_iff, !is_set_pending, !requested_pending.
  tauto.
Qed.

Lemma bind_ext {A B} (c : M A) (k1 k2 : A -> M B) (w : world) :
  (forall a w', k1 a w' = k2 a w') -> bind c k1 w = bind c k2 w.
Proof.
  intros H. unfold bind. destruct (c w) as [[a|message] w']; [apply H|reflexivity].
Qed.

Lemma bind_cong {A B} (c1 c2 : M A) (k1 k2 : A -> M B) (w : world) :
  (forall w', c1 w' = c2 w') ->
  (forall a w', k1 a w' = k2 a w') -> bind c1 k1 w = bind c2 k2 w.
Proof.
  intros Hc Hk. unfold bind. rewrite Hc.
  destruct (c2 w) as [[a|message] w']; [apply Hk|reflexivity].
Qed.

Lemma editVsixManifest_ext (E : Env) (s1 s2 : t) :
  (forall m, patchManifest s1 m = patchManifest s2 m) ->
  extensionVisibility s1 = extensionVisibility s2 ->
  extensionPricing s1 = extensionPricing s2 ->
  forall d w, editVsixManifest E s1 d w = editVsixManifest E s2 d w.
Proof.
  intros Hpatch Hv Hp d w. unfold editVsixManifest.
  apply bind_ext; intros _ w1.
  apply bind_ext; intros data w2.
  apply bind_ext; intros parsed w3.
  now rewrite Hpatch, Hv, Hp.
Qed.

(** [endEdit] reads the session only through these. *)
Lemma endEdit_ext (E : Env) (s1 s2 : t) :
  edit s1 = edit s2 ->
  hasEdits s1 = hasEdits s2 ->
  updatesTasks s1 = updatesTasks s2 ->
  (forall m, patchManifest s1 m = patchManifest s2 m) ->
  extensionVisibility s1 = extensionVisibility s2 ->
  extensionPricing s1 = extensionPricing s2 ->
  inputFile s1 = inputFile s2 ->
  outputPath s1 = outputPath s2 ->
  forall w, endEdit E s1 w = endEdit E s2 w.
Proof.
  intros Hedit Hhas Hupd Hpatch Hv Hp Hin Hout w.
  unfold endEdit, validateEditMode. rewrite Hedit.
  apply bind_ext; intros _ w1. rewrite Hhas, Hin.
  destruct (negb (truthy (hasEdits s2))); [reflexivity|].
  apply bind_ext; intros _ w2.
  apply bind_ext; intros d w3.
  apply bind_ext; intros _ w4.
  apply bind_ext; intros _ w5. rewrite Hupd.
  apply bind_ext; intros _ w6.
  apply bind_ext; intros _ w7.
  apply bind_cong; [apply editVsixManifest_ext; assumption|].
  intros md w8. now rewrite Hout.
Qed.

(** With the edit flag up and nothing pending, [endEdit] is the identity
    on the world. *)
Lemma endEdit_idle (E : Env) (this : t) (w : world) :
  edit this = true -> truthy (hasEdits this) = false ->
  endEdit E this w = (Ok (inputFile this), w).
Proof.
  intros Hedit Hnone. unfold endEdit, validateEditMode, bind.
  rewrite Hedit, Hnone. reflexivity.
Qed.

(** [endEdit] throws at its guard when the edit flag is down. *)
Lemma endEdit_unstarted (E : Env) (this : t) (w : world) :
  edit this = false ->
  endEdit E this w = (Throw "Editing is not started", w).
Proof.
  intros Hedit. unfold endEdit, validateEditMode, bind.
  rewrite Hedit. reflexivity.
Qed.

(** C3: for a started session with no pending edits, [endEdit] returns the
    input archive path, leaves the session as it is, and makes no call at
    all: the working directory and the trace of calls are unchanged. *)
Theorem endEdit_no_edits (E : Env) (this : t) (w : world) :
  edit this = true ->
  truthy (hasEdits this) = false ->
  endEdit E this w = (Ok (inputFile this), w) /\
  invoke E EndEdit this w = (Ok (this, Some (inputFile this)), w).
Proof.
  intros Hedit Hnone. unfold invoke, bind.
  now rewrite (endEdit_idle E this w Hedit Hnone).
Qed.

Lemma endEdit_no_edits_witness :
  endEdit (Demo.env [] (Exited 0)) Demo.idle Demo.world0
    = (Ok "in.vsix", Demo.world0) /\
  invoke (Demo.env [] (Exited 0)) EndEdit Demo.idle Demo.world0
    = (Ok (Demo.idle, Some "in.vsix"), Demo.world0).
Proof.
  apply (endEdit_no_edits (Demo.env [] (Exited 0)) Demo.idle Demo.world0);
    reflexivity.
Defined.

(** An empty string in a chain of [||] is skipped like [null]. *)
Lemma or_empty_null (a b : jsval) :
  Js.or (Js.or a (JStr "")) b = Js.or (Js.or a JNull) b.
Proof.
  unfold Js.or. destruct (truthy a) eqn:H; simpl; [now rewrite H|reflexivity].
Qed.

Ltac same_behaviour_tac :=
  unfold same_behaviour;
  match goal with
  | |- ?Hhas /\ ?Hupd /\ ?Hpatch /\ ?Hend =>
      assert (H1 : Hhas)
        by (unfold hasEdits; simpl; rewrite ?or_empty_null; reflexivity);
      assert (H2 : Hupd) by reflexivity;
      assert (H3 : Hpatch) by (intros m; reflexivity);
      repeat split; try assumption;
      intros w0; apply endEdit_ext; try assumption; reflexivity
  end.

(** C10: on a started session, each of [editVersion], [editId],
    [editIdTag], [editPublisher] and [editExtensionName] accepts the empty
    string, and the session it leaves behaves as if the field had stayed
    [null]: [hasEdits], the task update condition, the patch of the
    manifest and the whole of [endEdit] are the same; the patch leaves the
    value of the manifest as it was. *)
Theorem empty_string_edit (E : Env) (this : t) (w : world) :
  edit this = true ->
  (editVersion "" this w = (Ok (set_versionNumber (Some "") this), w) /\
   same_behaviour E (set_versionNumber (Some "") this)
                    (set_versionNumber None this) /\
   forall m, _Version (patchManifest (set_versionNumber (Some "") this) m)
             = _Version m) /\
  (editId "" this w = (Ok (set_id (Some "") this), w) /\
   same_behaviour E (set_id (Some "") this) (set_id None this) /\
   forall m, is_set (idTag this) = false ->
             _Id (patchManifest (set_id (Some "") this) m) = _Id m) /\
  (editIdTag "" this w = (Ok (set_idTag (Some "") this), w) /\
   same_behaviour E (set_idTag (Some "") this) (set_idTag None this) /\
   forall m, is_set (id this) = false ->
             _Id (patchManifest (set_idTag (Some "") this) m) = _Id m) /\
  (editPublisher "" this w = (Ok (set_publisher (Some "") this), w) /\
   same_behaviour E (set_publisher (Some "") this)
                    (set_publisher None this) /\
   forall m, _Publisher (patchManifest (set_publisher (Some "") this) m)
             = _Publisher m) /\
  (editExtensionName "" this w
     = (Ok (set_extensionName (Some "") this), w) /\
   same_behaviour E (set_extensionName (Some "") this)
                    (set_extensionName None this) /\
   forall m, DisplayName (patchManifest (set_extensionName (Some "") this) m)
             = DisplayName m).
Proof.
  intros Hedit.
  assert (Hcall : forall f : t -> t,
             (validateEditMode this ;; ret (f this)) w = (Ok (f this), w)).
  { intros f. unfold validateEditMode, bind. now rewrite Hedit. }
  split; [|split; [|split; [|split]]];
    (split; [apply Hcall|split; [same_behaviour_tac|]]);
    try (intros m; reflexivity).
  - intros m Htag. unfold patchManifest. simpl.
    destruct (idTag this) as [tag|]; [|reflexivity].
    now rewrite Htag.
  - intros m Hid. unfold patchManifest. simpl.
    destruct (id this) as [i|]; [|reflexivity].
    now rewrite Hid.
Qed.

Lemma empty_string_edit_witness :
  editVersion "" Demo.idle Demo.world0
    = (Ok (set_versionNumber (Some "") Demo.idle), Demo.world0) /\
  same_behaviour (Demo.env [] (Exited 0))
    (set_versionNumber (Some "") Demo.idle) (set_versionNumber None Demo.idle) /\
  forall m, _Version (patchManifest (set_versionNumber (Some "") Demo.idle) m)
            = _Version m.
Proof.
  apply (proj1 (empty_string_edit (Demo.env [] (Exited 0)) Demo.idle
                  Demo.world0 eq_refl)).
Defined.

(** C2, amended: with the edit flag down every edit method and [endEdit]
    throw "Editing is not started" and change nothing; with the flag up
    [startEdit] throws "Edit is already started", so it never succeeds
    twice in a row.  [endEdit] does not lower the flag: a completed
    [endEdit] leaves the session as it was, started, and a second
    [endEdit] passes the guard; with no pending edits it returns the
    input path once more. *)
Theorem edit_flag_guard (E : Env) :
  (forall c this w,
     edit this = false -> is_start c = false ->
     invoke E c this w = (Throw "Editing is not started", w)) /\
  (forall this w,
     edit this = true ->
     invoke E StartEdit this w = (Throw "Edit is already started", w)) /\
  (forall this w r w',
     invoke E StartEdit this w = (Ok r, w') ->
     invoke E StartEdit (fst r) w' = (Throw "Edit is already started", w')) /\
  (forall this w r w',
     invoke E EndEdit this w = (Ok r, w') ->
     fst r = this /\ edit this = true) /\
  (forall this w r w',
     invoke E EndEdit this w = (Ok r, w') ->
     truthy (hasEdits this) = false ->
     invoke E EndEdit (fst r) w' = (Ok (this, Some (inputFile this)), w')).
Proof.
  assert (Hstarted : forall this w,
             edit this = true ->
             invoke E StartEdit this w = (Throw "Edit is already started", w)).
  { intros this w Hedit. unfold invoke, startEdit, bind. now rewrite Hedit. }
  assert (Hend : forall this w r w',
             invoke E EndEdit this w = (Ok r, w') ->
             fst r = this /\ edit this = true).
  { intros this w r w' H. destruct (edit this) eqn:Hedit.
    - unfold invoke, bind in H.
      destruct (endEdit E this w) as [[path|message] w1]; [|discriminate].
      unfold ret in H. injection H as <- _. auto.
    - unfold invoke, bind in H. rewrite endEdit_unstarted in H by assumption.
      discriminate. }
  split; [|split; [exact Hstarted|split; [|split; [exact Hend|]]]].
  - intros c this w Hedit Hc.
    destruct c; try discriminate;
      try (unfold invoke, bind; rewrite endEdit_unstarted by assumption;
           reflexivity);
      unfold invoke, editVersion, editExtensionName, editExtensionVisibility,
        editExtensionPricing, editId, editIdTag, editPublisher,
        editUpdateTasksVersion, editUpdateTasksId, validateEditMode, bind;
      now rewrite Hedit.
  - intros this w r w' H. apply Hstarted.
    unfold invoke, startEdit, bind in H.
    destruct (edit this); [discriminate|].
    simpl in H. unfold ret in H. now injection H as <- _.
  - intros this w r w' H Hnone.
    destruct (Hend this w r w' H) as [-> Hedit].
    unfold invoke, bind. now rewrite endEdit_idle.
Qed.

Lemma edit_flag_guard_witness :
  invoke (Demo.env [] (Exited 0)) (EditVersion "2.0") (new "in.vsix" "out")
    Demo.world0 = (Throw "Editing is not started", Demo.world0) /\
  invoke (Demo.env [] (Exited 0)) StartEdit Demo.idle Demo.world0
    = (Throw "Edit is already started", Demo.world0) /\
  invoke (Demo.env [] (Exited 0)) EndEdit Demo.idle Demo.world0
    = (Ok (Demo.idle, Some "in.vsix"), Demo.world0).
Proof.
  destruct (edit_flag_guard (Demo.env [] (Exited 0)))
    as (Hbefore & Hstart & _ & _ & Hagain).
  split; [|split].
  - apply Hbefore; reflexivity.
  - apply Hstart; reflexivity.
  - apply (Hagain Demo.idle Demo.world0 (Demo.idle, Some "in.vsix") Demo.world0);
      reflexivity.
Defined.

(** C2 as stated fails on its last part: a second [endEdit] after a
    completed one does not fail.  Here a session is started, given a
    version, and finalized twice; both calls return the archive name. *)
Lemma endEdit_twice_counterexample :
  exists this',
    fst (script (Demo.env [] (Exited 0))
           [StartEdit; EditVersion "2.0"; EndEdit; EndEdit]
           (new "in.vsix" "out") Demo.world0)
    = Ok (this', [None; None; Some "p.x-2.0.gen.vsix"; Some "p.x-2.0.gen.vsix"]).
Proof. eexists. vm_compute. reflexivity. Qed.

End SessionFacts.

(* ================================================================== *)
(** * The round trip: calls made and working directory *)
(* ================================================================== *)

Module RoundTripFacts.
Import Sys Js Props VSIXEditor.

Lemma count_updates_app (t1 t2 : list event) :
  count_updates (t1 ++ t2) = count_updates t1 + count_updates t2.
Proof.
  induction t1 as [|e t1 IH]; simpl; [reflexivity|].
  destruct e; simpl; rewrite IH; reflexivity.
Qed.

Lemma grows_quietly_refl (w : world) : grows_quietly w w.
Proof. exists []. now rewrite app_nil_r. Qed.

Lemma grows_quietly_trans (w1 w2 w3 : world) :
  grows_quietly w1 w2 -> grows_quietly w2 w3 -> grows_quietly w1 w3.
Proof.
  intros (e1 & H1 & C1) (e2 & H2 & C2). exists (e1 ++ e2).
  rewrite H2, H1, app_assoc, count_updates_app, C1, C2. auto.
Qed.

Lemma grows_quietly_count (w w' : world) :
  grows_quietly w w' ->
  count_updates (trace w') = count_updates (trace w).
Proof. intros (evs & -> & H). rewrite count_updates_app. lia. Qed.

Lemma bind_snd {A B} (c : M A) (k : A -> M B) (w : world) :
  snd (bind c k w) =
  match c w with
  | (Ok a, w1) => snd (k a w1)
  | (Throw _, w1) => w1
  end.
Proof. unfold bind. now destruct (c w) as [[a|message] w1]. Qed.

Lemma quiet_ret {A} (a : A) : quiet (ret a).
Proof. intros w. apply grows_quietly_refl. Qed.

Lemma quiet_throw {A} (message : string) : quiet (@throw A message).
Proof. intros w. apply grows_quietly_refl. Qed.

Lemma quiet_getcwd : quiet getcwd.
Proof. intros w. apply grows_quietly_refl. Qed.

Lemma quiet_chdir (dir : string) : quiet (chdir dir).
Proof. intros w. exists []. simpl. now rewrite app_nil_r. Qed.

Lemma quiet_emit (e : event) : count_updates [e] = 0 -> quiet (emit e).
Proof. intros H w. now exists [e]. Qed.

Lemma quiet_bind {A B} (c : M A) (k : A -> M B) :
  quiet c -> (forall a, quiet (k a)) -> quiet (bind c k).
Proof.
  intros Hc Hk w. rewrite bind_snd. specialize (Hc w).
  destruct (c w) as [[a|message] w1]; simpl in Hc; [|assumption].
  eapply grows_quietly_trans; [exact Hc|apply Hk].
Qed.

Ltac quiet_tac :=
  repeat first
    [ apply quiet_ret | apply quiet_throw | apply quiet_getcwd
    | apply quiet_chdir
    | apply quiet_emit; reflexivity
    | apply quiet_bind; [|intros ?]
    | match goal with
      | |- quiet (if ?b then _ else _) => destruct b
      | |- quiet (match ?x with _ => _ end) => destruct x
      end ].

Lemma quiet_debug (message : string) : quiet (Tl.debug message).
Proof. unfold Tl.debug. quiet_tac. Qed.

Lemma quiet_cd (E : Env) (dir : string) : quiet (Tl.cd E dir).
Proof. unfold Tl.cd. quiet_tac. Qed.

Lemma quiet_execSync (E : Env) (tool : string) (args : list string) :
  quiet (Tl.execSync E tool args).
Proof. unfold Tl.execSync. quiet_tac. Qed.

Lemma quiet_temp_mkdir (E : Env) (affixes : string) :
  quiet (Tl.temp_mkdir E affixes).
Proof. unfold Tl.temp_mkdir. quiet_tac. Qed.

Lemma quiet_extractArchive (E : Env) (vsix tmpPath : string) :
  quiet (extractArchive E vsix tmpPath).
Proof.
  unfold extractArchive, Tl.cwd, Tl.import_7zip_bin, Tl.which.
  quiet_tac; first [apply quiet_execSync|apply quiet_cd].
Qed.

Lemma quiet_createArchive (E : Env) (originalVsix tmpPath targetVsix : string) :
  quiet (createArchive E originalVsix tmpPath targetVsix).
Proof.
  unfold createArchive, Tl.cwd, Tl.cp, Tl.import_7zip_bin, Tl.which.
  quiet_tac; first [apply quiet_execSync|apply quiet_cd].
Qed.

Lemma quiet_editVsixManifest (E : Env) (this : t) (dirPath : string) :
  quiet (editVsixManifest E this dirPath).
Proof.
  unfold editVsixManifest, Tl.import_x2js, Tl.readFile, Tl.x2js_xml2js,
    Tl.writeFile.
  quiet_tac.
Qed.

Lemma quiet_createOutputFilePath (E : Env) (m : ManifestData.t) (out : string) :
  quiet (ManifestData.createOutputFilePath E m out).
Proof. unfold ManifestData.createOutputFilePath. quiet_tac. Qed.

Ltac run_tools :=
  unfold Tl.cwd, Tl.cd, Tl.cp, Tl.which, Tl.import_7zip_bin, Tl.execSync,
    bind, emit, getcwd, chdir, ret, throw;
  simpl;
  repeat match goal with
         | |- context [match ?x with _ => _ end] =>
             match x with
             | context [match _ with _ => _ end] => fail 1
             | _ => destruct x eqn:?; simpl
             end
         end.

(** Extraction never changes the working directory. *)
Lemma extractArchive_cwd (E : Env) (vsix tmpPath : string) (w : world) :
  cwd (snd (extractArchive E vsix tmpPath w)) = cwd w.
Proof. unfold extractArchive. run_tools; reflexivity. Qed.

(** Whether extraction returns depends on the world through the working
    directory only. *)
Lemma extractArchive_fst (E : Env) (vsix tmpPath : string) (w1 w2 : world) :
  cwd w1 = cwd w2 ->
  fst (extractArchive E vsix tmpPath w1) = fst (extractArchive E vsix tmpPath w2).
Proof.
  intros Hcwd. unfold extractArchive.
  unfold Tl.cwd, Tl.cd, Tl.cp, Tl.which, Tl.import_7zip_bin, Tl.execSync,
    bind, emit, getcwd, chdir, ret, throw.
  simpl. rewrite Hcwd.
  destruct (is_windows (getPlatform E)).
  - destruct (path7za E); [|reflexivity].
    simpl. now destruct (cd_ok E (cwd w2)).
  - destruct (Sys.which E "unzip"); [|reflexivity].
    simpl. now destruct (cd_ok E (cwd w2)).
Qed.

Lemma createArchive_windows_cwd (E : Env) (o tmpPath target : string) (w : world) :
  is_windows (getPlatform E) = true ->
  cwd (snd (createArchive E o tmpPath target w)) = cwd w.
Proof.
  intros Hwin. unfold createArchive. rewrite Hwin. run_tools; reflexivity.
Qed.

Lemma createArchive_returns_cwd (E : Env) (o tmpPath target : string) (w : world) :
  fst (createArchive E o tmpPath target w) = Ok tt ->
  cwd (snd (createArchive E o tmpPath target w)) = cwd w.
Proof.
  unfold createArchive. run_tools; intros H; try reflexivity; discriminate.
Qed.

(** Whatever the archive tool hands back, compression ends in the
    directory it started in as soon as that directory can be entered. *)
Lemma createArchive_cd_ok_cwd (E : Env) (o tmpPath target : string) (w : world) :
  cd_ok E (cwd w) = true ->
  cwd (snd (createArchive E o tmpPath target w)) = cwd w.
Proof.
  intros Hcd. unfold createArchive. run_tools; try reflexivity; congruence.
Qed.

(** C5, amended: the extraction step leaves the working directory at its
    value on entry on every exit path; so does the compression step on
    Windows; on the other platforms the compression step does so
    whenever the restoring change of directory succeeds, whatever the
    archive tool handed back (an exit code, zero or not, or the error of
    a failed spawn), and so whenever it returns. *)
Theorem cwd_restored (E : Env) (original tmpPath target : string) (w : world) :
  cwd (snd (extractArchive E original tmpPath w)) = cwd w /\
  (is_windows (getPlatform E) = true ->
   cwd (snd (createArchive E original tmpPath target w)) = cwd w) /\
  (fst (createArchive E original tmpPath target w) = Ok tt ->
   cwd (snd (createArchive E original tmpPath target w)) = cwd w) /\
  (cd_ok E (cwd w) = true ->
   cwd (snd (createArchive E original tmpPath target w)) = cwd w).
Proof.
  split; [apply extractArchive_cwd|].
  split; [apply createArchive_windows_cwd|].
  split; [apply createArchive_returns_cwd|apply createArchive_cd_ok_cwd].
Qed.

Lemma cwd_restored_witness :
  cwd (snd (createArchive (Demo.env [] (Crashed "spawn zip EACCES")) "in.vsix"
              "/tmp/vsixeditor" "p.x-2.0.gen.vsix" Demo.world0)) = "/agent".
Proof.
  apply (proj2 (proj2 (proj2
           (cwd_restored (Demo.env [] (Crashed "spawn zip EACCES")) "in.vsix"
              "/tmp/vsixeditor" "p.x-2.0.gen.vsix" Demo.world0)))).
  reflexivity.
Defined.

(** C5 as stated fails for the compression step outside Windows on the
    exit path where the restoring [tl.cd(cwd)] itself throws: the tool
    has run in the scratch directory, the directory of entry can no
    longer be entered, and the working directory stays in the scratch
    directory. *)
Lemma cwd_restored_counterexample :
  createArchive (MoreProps.without_dir "/agent" (Demo.env [] (Exited 0)))
    "in.vsix" "/tmp/vsixeditor" "p.x-2.0.gen.vsix" Demo.world0
  = (Throw "Failed cd: no such directory: /agent",
     mkWorld "/tmp/vsixeditor"
       [Cp "in.vsix" "p.x-2.0.gen.vsix" "-f"; Which "zip";
        Cd "/tmp/vsixeditor";
        ExecSync "/usr/bin/zip" ["/agent/p.x-2.0.gen.vsix"; "."; "-r"; "-9"; "-f"];
        Cd "/agent"])
  /\ cwd Demo.world0 = "/agent".
Proof. split; reflexivity. Qed.

Ltac quiet_steps :=
  repeat first
    [ apply quiet_debug | apply quiet_editVsixManifest
    | apply quiet_createOutputFilePath | apply quiet_createArchive
    | apply quiet_ret | apply quiet_bind; [|intros ?] ].

Lemma temp_mkdir_run (E : Env) (affixes : string) (w : world) :
  Tl.temp_mkdir E affixes w =
  let w1 := mkWorld (cwd w) (trace w ++ [TempMkdir affixes]) in
  match mkdir E affixes with
  | Some dirPath => (Ok dirPath, w1)
  | None => (Throw ("Failed mkdir: " ++ affixes), w1)
  end.
Proof.
  unfold Tl.temp_mkdir, bind, emit. simpl.
  now destruct (mkdir E affixes).
Qed.

Lemma checkUpdateTasksManifests_run (E : Env) (manifest : string) (w : world) :
  snd (Tl.checkUpdateTasksManifests E manifest w) =
  mkWorld (cwd w) (trace w ++ [CheckUpdateTasksManifests manifest]).
Proof.
  unfold Tl.checkUpdateTasksManifests, bind, emit. simpl.
  now destruct (updateTasks_ok E manifest).
Qed.

(** The trace of [endEdit] with pending edits: either no task update was
    called, or exactly one, on the manifest of the scratch directory. *)
Lemma endEdit_trace (E : Env) (this : t) (w : world) :
  edit this = true -> truthy (hasEdits this) = true ->
  let w' := snd (endEdit E this w) in
  (grows_quietly w w' /\
   (truthy (updatesTasks this) = false \/
    mkdir E "vsixeditor" = None \/
    exists d, mkdir E "vsixeditor" = Some d /\
              fst (extractArchive E (inputFile this) d w) <> Ok tt)) \/
  (truthy (updatesTasks this) = true /\
   exists d pre post,
     mkdir E "vsixeditor" = Some d /\
     fst (extractArchive E (inputFile this) d w) = Ok tt /\
     trace w' =
       trace w ++ pre
         ++ [CheckUpdateTasksManifests (path_join E d "extension.vsomanifest")]
         ++ post /\
     count_updates pre = 0 /\ count_updates post = 0).
Proof.
  intros Hedit Hhas w'. remember w' as wf eqn:Hwf. subst w'.
  unfold endEdit, validateEditMode in Hwf.
  rewrite Hedit, bind_snd in Hwf. cbn [negb] in Hwf.
  unfold ret at 1 in Hwf. cbv beta iota in Hwf.
  rewrite Hhas in Hwf. cbn [negb] in Hwf. cbv iota in Hwf.
  rewrite bind_snd in Hwf. unfold Tl.temp_track at 1, emit at 1 in Hwf.
  rewrite bind_snd, temp_mkdir_run in Hwf. cbv zeta in Hwf.
  destruct (mkdir E "vsixeditor") as [d|] eqn:Hmk.
  2:{ left. split; [|auto]. subst wf.
      exists [TempTrack; TempMkdir "vsixeditor"]. simpl.
      now rewrite <- app_assoc. }
  rewrite bind_snd in Hwf. unfold Tl.debug at 1, emit at 1 in Hwf.
  set (w3 := mkWorld _ _) in Hwf.
  assert (Hw3 : grows_quietly w w3).
  { exists [TempTrack; TempMkdir "vsixeditor"; Debug ("Extracting files to " ++ d)].
    subst w3. simpl. now rewrite <- !app_assoc. }
  assert (Hcwd : cwd w3 = cwd w) by reflexivity.
  rewrite bind_snd in Hwf.
  pose proof (quiet_extractArchive E (inputFile this) d w3) as Hq.
  pose proof (extractArchive_fst E (inputFile this) d w3 w Hcwd) as Hfst.
  destruct (extractArchive E (inputFile this) d w3) as [[[]|message] w4];
    simpl in Hq, Hfst.
  2:{ left. subst wf. split; [eapply grows_quietly_trans; eassumption|].
      right. right. exists d. split; [reflexivity|].
      rewrite <- Hfst. discriminate. }
  pose proof (grows_quietly_trans _ _ _ Hw3 Hq) as Hw4.
  rewrite bind_snd in Hwf.
  destruct (truthy (updatesTasks this)) eqn:Hgate.
  - right. split; [reflexivity|].
    destruct Hw4 as (pre & Hpre & Cpre).
    pose proof (checkUpdateTasksManifests_run E
                  (path_join E d "extension.vsomanifest")) as Hupd.
    unfold bind at 1 in Hwf. unfold Tl.debug at 1, emit at 1 in Hwf.
    set (w5 := mkWorld _ _) in Hwf.
    specialize (Hupd w5).
    destruct (Tl.checkUpdateTasksManifests E
                (path_join E d "extension.vsomanifest") w5)
      as [[[]|message] w6]; simpl in Hupd.
    + match type of Hwf with
      | _ = snd (?rest w6) =>
          assert (Hrest : quiet rest) by quiet_steps;
          destruct (Hrest w6) as (post & Hpost & Cpost)
      end.
      rewrite <- Hwf in Hpost.
      exists d, (pre ++ [Debug "Look for build tasks manifest"]), post.
      split; [reflexivity|]. split; [now symmetry|].
      split; [|split; [|assumption]].
      * rewrite Hpost, Hupd. subst w5. simpl. rewrite Hpre.
        now rewrite <- !app_assoc.
      * rewrite count_updates_app, Cpre. reflexivity.
    + exists d, (pre ++ [Debug "Look for build tasks manifest"]), [].
      split; [reflexivity|]. split; [now symmetry|].
      split; [|split; [|reflexivity]].
      * rewrite Hwf, Hupd. subst w5. simpl. rewrite Hpre.
        now rewrite <- !app_assoc.
      * rewrite count_updates_app, Cpre. reflexivity.
  - left. split; [|auto]. unfold ret at 1 in Hwf. cbv beta iota in Hwf.
    eapply grows_quietly_trans; [exact Hw4|].
    match type of Hwf with
    | _ = snd (?rest w4) =>
        assert (Hrest : quiet rest) by quiet_steps; rewrite Hwf; apply Hrest
    end.
Qed.

(** C8: in [endEdit] with pending edits the task manifests update is
    called at most once, and only when a version edit is pending with
    [updateTasksVersion] true, or [updateTasksId] is true; when that
    holds and the run gets past the extraction, it is called exactly once,
    on [extension.vsomanifest] of the scratch directory. *)
Theorem task_update_gate (E : Env) (this : t) (w : world) :
  edit this = true ->
  truthy (hasEdits this) = true ->
  let w' := snd (endEdit E this w) in
  let gate :=
    (pending (versionNumber this) /\ updateTasksVersion this = true) \/
    updateTasksId this = true in
  (count_updates (trace w') = count_updates (trace w) \/
   count_updates (trace w') = S (count_updates (trace w))) /\
  (count_updates (trace w') = S (count_updates (trace w)) -> gate) /\
  (forall d,
     mkdir E "vsixeditor" = Some d ->
     fst (extractArchive E (inputFile this) d w) = Ok tt ->
     gate ->
     count_updates (trace w') = S (count_updates (trace w)) /\
     In (CheckUpdateTasksManifests (path_join E d "extension.vsomanifest"))
        (trace w')).
Proof.
  intros Hedit Hhas w' gate.
  assert (Hgate : truthy (updatesTasks this) = true <-> gate).
  { subst gate. rewrite SessionFacts.updatesTasks_truthy, orb_true_iff,
      andb_true_iff, SessionFacts.is_set_pending. tauto. }
  assert (Hloud : forall pre post x,
             trace w' = trace w ++ pre ++ [CheckUpdateTasksManifests x] ++ post ->
             count_updates pre = 0 -> count_updates post = 0 ->
             count_updates (trace w') = S (count_updates (trace w))).
  { intros pre post x Htrace Cpre Cpost. rewrite Htrace.
    rewrite !count_updates_app, Cpre, Cpost. simpl. lia. }
  destruct (endEdit_trace E this w Hedit Hhas)
    as [[Hquiet Hwhy]|(Hon & d & pre & post & Hmk & Hex & Htrace & Cpre & Cpost)];
    fold w' in Hquiet || fold w' in Htrace.
  - apply grows_quietly_count in Hquiet. split; [now left|]. split.
    + intros H. lia.
    + intros d Hmk Hex Hg. exfalso.
      destruct Hwhy as [Hoff|[Hnone|(d' & Hmk' & Hfail)]].
      * apply Hgate in Hg. congruence.
      * congruence.
      * assert (d' = d) by congruence. subst d'. contradiction.
  - pose proof (Hloud pre post _ Htrace Cpre Cpost) as Hcount.
    split; [now right|]. split.
    + intros _. now apply Hgate.
    + intros d' Hmk' _ _. assert (d' = d) by congruence. subst d'.
      split; [assumption|]. rewrite Htrace.
      apply in_or_app. right. apply in_or_app. right. now left.
Qed.

Lemma task_update_gate_witness :
  let E := Demo.env [] (Exited 0) in
  let this := set_versionNumber (Some "2.0") Demo.idle in
  let w' := snd (endEdit E this Demo.world0) in
  count_updates (trace w') = 1 /\
  In (CheckUpdateTasksManifests "/tmp/vsixeditor/extension.vsomanifest")
     (trace w').
Proof.
  apply (proj2 (proj2 (task_update_gate (Demo.env [] (Exited 0))
                         (set_versionNumber (Some "2.0") Demo.idle)
                         Demo.world0 eq_refl eq_refl))
           "/tmp/vsixeditor").
  - reflexivity.
  - reflexivity.
  - left. split; [|reflexivity]. exists "2.0". split; [reflexivity|discriminate].
Defined.

(** Whatever the output directory holds, the method hands back the
    canonical name. *)
Lemma createOutputFilePath_canonical (E : Env) (m : ManifestData.t)
    (out : string) (w : world) :
  fst (ManifestData.createOutputFilePath E m out w)
  = Ok (ManifestData.canonicalName m).
Proof. reflexivity. Qed.

(** C1: at publisher "Acme", id "Tool", version "1.0.0" and an output
    directory that already holds [Acme.Tool-1.0.0.gen.vsix], the method
    returns that same name, not the first unused one; the chain of
    existence checks it started finds [Acme.Tool-1.0.0.gen01.vsix] free,
    and only logs it. *)
Theorem createOutputFilePath_collision :
  let E := Demo.env ["out/Acme.Tool-1.0.0.gen.vsix"] (Exited 0) in
  fs_exists E (path_join E "out" "Acme.Tool-1.0.0.gen.vsix") = true /\
  fst (ManifestData.createOutputFilePath E Demo.acme "out" Demo.world0)
    = Ok "Acme.Tool-1.0.0.gen.vsix" /\
  ManifestData.updateFileName E 2 Demo.acme "out"
    (ManifestData.canonicalName Demo.acme) 0
    = Some [FsExists "out/Acme.Tool-1.0.0.gen.vsix";
            FsExists "out/Acme.Tool-1.0.0.gen01.vsix";
            Debug "Generated filename: Acme.Tool-1.0.0.gen01.vsix"].
Proof. repeat split. Qed.

End RoundTripFacts.

(* ================================================================== *)
(** * The probe for a free output name *)
(* ================================================================== *)

Module ProbeFacts.
Import Sys Js Props MoreProps ManifestData.

Lemma append_inv_head (s a b : string) :
  (s ++ a)%string = (s ++ b)%string -> a = b.
Proof. induction s as [|c s IH]; simpl; [auto|]. intros [= H]. auto. Qed.

Lemma length_append (a b : string) :
  String.length (a ++ b) = String.length a + String.length b.
Proof. induction a as [|c a IH]; simpl; [reflexivity|now rewrite IH]. Qed.

Lemma append_inv_tail (t a b : string) :
  (a ++ t)%string = (b ++ t)%string -> a = b.
Proof.
  revert b. induction a as [|c a IH]; intros b H.
  - destruct b as [|d b]; [reflexivity|].
    apply (f_equal String.length) in H. simpl in H.
    rewrite length_append in H. lia.
  - destruct b as [|d b].
    + apply (f_equal String.length) in H. simpl in H.
      rewrite length_append in H. lia.
    + simpl in H. injection H as -> H. f_equal. auto.
Qed.

(** Zeros put in front of a decimal numeral do not change its value. *)
Lemma decode_zeros (k : nat) (d : Decimal.uint) :
  decode_generation (repeat_char "0" k ++ NilEmpty.string_of_uint d)
  = Some (Nat.of_uint d).
Proof.
  unfold decode_generation. induction k as [|k IH]; simpl.
  - now rewrite NilEmpty.usu.
  - destruct (NilEmpty.uint_of_string
                (repeat_char "0" k ++ NilEmpty.string_of_uint d))
      as [u|]; simpl in *; [|discriminate].
    injection IH as IH. now rewrite <- IH.
Qed.

(** The padded suffix of a generation name reads back as its number. *)
Lemma decode_padStart (iteration : nat) :
  decode_generation (padStart 2 "0" (Js.toString iteration)) = Some iteration.
Proof.
  unfold padStart, Js.toString. rewrite decode_zeros.
  now rewrite Unsigned.of_to.
Qed.

(** Distinct rounds give distinct generation names. *)
Lemma generationName_inj (m : ManifestData.t) (i j : nat) :
  generationName m i = generationName m j -> i = j.
Proof.
  unfold generationName. intros H.
  repeat apply append_inv_head in H.
  apply append_inv_tail in H.
  apply (f_equal decode_generation) in H.
  rewrite !decode_padStart in H. congruence.
Qed.

(** For rounds 1 to 9 the suffix is the digit behind one zero; from
    round 10 on it is the plain numeral, as long as it gets. *)
Lemma padStart_length (s : string) :
  String.length (padStart 2 "0" s) = Nat.max 2 (String.length s).
Proof.
  unfold padStart. rewrite length_append.
  assert (H : forall k, String.length (repeat_char "0" k) = k)
    by (induction k; simpl; congruence).
  rewrite H. lia.
Qed.

Lemma probed_later (m : ManifestData.t) (f1 f2 : string) (j : nat) :
  0 < j -> probed m f1 j = probed m f2 j.
Proof. unfold probed. destruct j; [lia|reflexivity]. Qed.

(** What a finished chain of checks did: it checked the rounds from
    [iteration] on, one after the other, found every name but the last
    one taken, and logged the last one, which is free. *)
Lemma updateFileName_sound (E : Env) (fuel : nat) (m : ManifestData.t)
    (out fileName : string) (iteration : nat) (evs : list event) :
  updateFileName E fuel m out fileName iteration = Some evs ->
  exists k,
    k < fuel /\
    (forall j, iteration <= j < iteration + k ->
       fs_exists E (path_join E out (probed m fileName j)) = true) /\
    fs_exists E (path_join E out (probed m fileName (iteration + k))) = false /\
    evs = map (fun j => FsExists (path_join E out (probed m fileName j)))
              (seq iteration (S k))
          ++ [Debug ("Generated filename: " ++ probed m fileName (iteration + k))].
Proof.
  revert fileName iteration evs.
  induction fuel as [|fuel IH]; intros fileName iteration evs H;
    [discriminate|].
  simpl in H. fold (probed m fileName iteration) in H.
  destruct (fs_exists E (path_join E out (probed m fileName iteration))) eqn:Hex.
  - destruct (updateFileName E fuel m out (probed m fileName iteration)
                (S iteration)) as [rest|] eqn:Hrec; [|discriminate].
    injection H as <-.
    destruct (IH _ _ _ Hrec) as (k & Hk & Hall & Hfree & ->).
    assert (Hsame : forall j, S iteration <= j ->
              probed m (probed m fileName iteration) j = probed m fileName j)
      by (intros j Hj; apply probed_later; lia).
    exists (S k). split; [lia|]. split; [|split].
    + intros j Hj. destruct (Nat.eq_dec j iteration) as [->|Hne]; [assumption|].
      rewrite <- Hsame by lia. apply Hall. lia.
    + replace (iteration + S k) with (S iteration + k) by lia.
      rewrite <- Hsame by lia. exact Hfree.
    + replace (iteration + S k) with (S iteration + k) by lia.
      rewrite (Hsame (S iteration + k)) by lia.
      rewrite (map_ext_in _
                 (fun j => FsExists (path_join E out (probed m fileName j)))
                 (seq (S iteration) (S k))).
      2:{ intros j Hj. apply in_seq in Hj. now rewrite Hsame by lia. }
      reflexivity.
  - injection H as <-. exists 0. rewrite Nat.add_0_r.
    split; [lia|]. split; [intros j Hj; lia|]. split; [assumption|].
    reflexivity.
Qed.



(** The chain of checks that [createOutputFilePath] starts, once it has
    run to its end: it went through the canonical name and then the
    generation names 01, 02, ... in order, every name before the last was
    taken, and the name it logs is free. *)
Theorem probe_logs_first_unused (E : Env) (fuel : nat) (m : ManifestData.t)
    (out : string) (evs : list event) :
  updateFileName E fuel m out (canonicalName m) 0 = Some evs ->
  exists k,
    k < fuel /\
    (forall j, j < k ->
       fs_exists E (path_join E out (probed m (canonicalName m) j)) = true) /\
    fs_exists E (path_join E out (probed m (canonicalName m) k)) = false /\
    evs = map (fun j => FsExists (path_join E out (probed m (canonicalName m) j)))
              (seq 0 (S k))
          ++ [Debug ("Generated filename: " ++ probed m (canonicalName m) k)].
Proof.
  intros H. destruct (updateFileName_sound _ _ _ _ _ _ _ H)
    as (k & Hk & Hall & Hfree & Hevs).
  exists k. simpl in Hfree, Hevs. repeat split; try assumption.
  intros j Hj. apply Hall. lia.
Qed.

Lemma probe_logs_first_unused_witness :
  exists k,
    k < 5 /\
    (forall j, j < k ->
       fs_exists (Demo.env ["out/Acme.Tool-1.0.0.gen.vsix"] (Exited 0))
         (path_join (Demo.env ["out/Acme.Tool-1.0.0.gen.vsix"] (Exited 0)) "out"
            (probed Demo.acme (canonicalName Demo.acme) j)) = true) /\
    fs_exists (Demo.env ["out/Acme.Tool-1.0.0.gen.vsix"] (Exited 0))
      (path_join (Demo.env ["out/Acme.Tool-1.0.0.gen.vsix"] (Exited 0)) "out"
         (probed Demo.acme (canonicalName Demo.acme) k)) = false /\
    [FsExists "out/Acme.Tool-1.0.0.gen.vsix";
     FsExists "out/Acme.Tool-1.0.0.gen01.vsix";
     Debug "Generated filename: Acme.Tool-1.0.0.gen01.vsix"]
    = map (fun j =>
             FsExists
               (path_join (Demo.env ["out/Acme.Tool-1.0.0.gen.vsix"] (Exited 0))
                  "out" (probed Demo.acme (canonicalName Demo.acme) j)))
          (seq 0 (S k))
      ++ [Debug ("Generated filename: "
                 ++ probed Demo.acme (canonicalName Demo.acme) k)].
Proof.
  apply (probe_logs_first_unused
           (Demo.env ["out/Acme.Tool-1.0.0.gen.vsix"] (Exited 0)) 5 Demo.acme
           "out").
  reflexivity.
Defined.

(** Two different rounds never check the same generation name. *)
Theorem generation_names_distinct (m : ManifestData.t) (i j : nat) :
  i <> j -> generationName m i <> generationName m j.
Proof. intros Hne H. apply Hne. exact (generationName_inj m i j H). Qed.

Lemma generation_names_distinct_witness :
  generationName Demo.acme 1 <> generationName Demo.acme 10.
Proof. apply generation_names_distinct. discriminate. Defined.

(** The suffix of a generation name reads back as the round number, and
    is two characters long or as long as the plain numeral, whichever is
    more: the zero is only put in front of one digit. *)
Theorem generation_suffix (iteration : nat) :
  decode_generation (padStart 2 "0" (Js.toString iteration)) = Some iteration /\
  String.length (padStart 2 "0" (Js.toString iteration))
  = Nat.max 2 (String.length (Js.toString iteration)).
Proof. split; [apply decode_padStart|apply padStart_length]. Qed.



End ProbeFacts.

(* ================================================================== *)
(** * More on the flag editor *)
(* ================================================================== *)

Module FlagsMore.
Import Js Props JsFacts GalleryFlagsEditor FlagsFacts PatchFacts.

(** An editor whose flags are tokens is rebuilt from its own text. *)
Lemma new_toString (e : t) :
  Forall (fun x => is_token x = true) (flags e) -> new (toString e) = e.
Proof.
  intros Hall. pose proof (tokens_join (flags e) Hall) as H.
  unfold tokens in H. change (join " " (flags e)) with (toString e) in H.
  destruct (new (toString e)) as [l']. destruct e as [l].
  simpl in H. now subst.
Qed.

(** Whatever the flags text, the constructor keeps only tokens (not
    empty, no space inside), in their order, and writing them out and
    reading them back changes neither the tokens nor the text. *)
Theorem constructor_normalises (g : string) :
  Forall (fun x => is_token x = true) (flags (new g)) /\
  new (toString (new g)) = new g /\
  toString (new (toString (new g))) = toString (new g).
Proof.
  pose proof (tokens_are_tokens g) as Hall. unfold tokens in Hall.
  split; [assumption|].
  rewrite (new_toString (new g) Hall). auto.
Qed.

(** Serializing an editor and constructing one from the text gives the
    editor back, provided its flags are tokens; flags that hold a space
    or an empty string do not survive. *)
Theorem serialize_then_construct (e : t) :
  Forall (fun x => is_token x = true) (flags e) -> new (toString e) = e.
Proof. exact (new_toString e). Qed.

Lemma serialize_then_construct_witness :
  new (toString (mk ["Public"; "Paid"])) = mk ["Public"; "Paid"].
Proof.
  apply serialize_then_construct. repeat constructor.
Defined.

Lemma NoDup_added (x : string) (b a : list string) :
  added_if_absent x b a -> NoDup b -> NoDup a.
Proof.
  intros [[_ ->]|[Hno ->]] Hb; [assumption|].
  apply NoDup_app; [assumption|repeat constructor; intros []|].
  intros y Hy [<-|[]]. contradiction.
Qed.

Lemma NoDup_removed (x : string) (b a : list string) :
  removed_first x b a -> NoDup b -> NoDup a /\ ~ In x a.
Proof.
  intros [[Hno ->]|(l1 & l2 & -> & Hno & ->)] Hb; [auto|].
  split; [now apply NoDup_remove_1 in Hb|].
  now apply NoDup_remove_2 in Hb.
Qed.

(** Over a list without repeats, adding and removing keep it so, a
    removed flag is gone, and removing a flag that was just added to a
    list without it gives the list back. *)
Theorem flags_stay_distinct (flag : string) (e : t) :
  NoDup (flags e) ->
  NoDup (flags (addFlag flag e)) /\
  NoDup (flags (removeFlag flag e)) /\
  ~ In flag (flags (removeFlag flag e)) /\
  (~ In flag (flags e) -> removeFlag flag (addFlag flag e) = e).
Proof.
  intros Hnd.
  destruct (NoDup_removed _ _ _ (removeFlag_spec flag e) Hnd) as [Hr Hgone].
  split; [exact (NoDup_added _ _ _ (addFlag_spec flag e) Hnd)|].
  split; [assumption|]. split; [assumption|].
  intros Hno.
  destruct (addFlag_spec flag e) as [[Hin _]|[_ Hadd]]; [contradiction|].
  destruct (removeFlag_spec flag (addFlag flag e))
    as [[Habs _]|(l1 & l2 & Heq & Hl1 & Hrem)].
  - exfalso. apply Habs. apply addFlag_In.
  - rewrite Hadd in Heq.
    assert (Hsplit : l1 = flags e /\ l2 = []).
    { clear -Heq Hl1 Hno. revert l1 Heq Hl1.
      induction (flags e) as [|y l IH]; intros l1 Heq Hl1.
      - destruct l1 as [|z l1]; [now injection Heq as <-|].
        simpl in Heq. injection Heq as <- Heq.
        exfalso. apply Hl1. now left.
      - destruct l1 as [|z l1].
        + simpl in Heq. injection Heq as <- _. exfalso. apply Hno. now left.
        + simpl in Heq. injection Heq as <- Heq.
          destruct (IH (fun H => Hno (or_intror H)) l1 Heq
                       (fun H => Hl1 (or_intror H))) as [-> ->].
          auto. }
    destruct Hsplit as [-> ->]. rewrite app_nil_r in Hrem.
    rewrite <- (eta (removeFlag flag (addFlag flag e))), Hrem. apply eta.
Qed.

Lemma flags_stay_distinct_witness :
  NoDup (flags (addFlag "Paid" (new "Public Preview"))) /\
  NoDup (flags (removeFlag "Paid" (new "Public Preview"))) /\
  ~ In "Paid" (flags (removeFlag "Paid" (new "Public Preview"))) /\
  (~ In "Paid" (flags (new "Public Preview")) ->
   removeFlag "Paid" (addFlag "Paid" (new "Public Preview"))
   = new "Public Preview").
Proof.
  apply (flags_stay_distinct "Paid" (new "Public Preview")).
  repeat constructor; simpl; intuition discriminate.
Defined.

Lemma split_at_last (x : string) (l l1 l2 : list string) :
  l ++ [x] = l1 ++ x :: l2 -> ~ In x l -> l1 = l /\ l2 = [].
Proof.
  revert l1. induction l as [|y l IH]; intros l1 Heq Hno.
  - destruct l1 as [|z l1]; [now injection Heq as <-|].
    simpl in Heq. injection Heq as _ Heq. now destruct l1.
  - destruct l1 as [|z l1].
    + simpl in Heq. injection Heq as -> _. exfalso. apply Hno. now left.
    + simpl in Heq. injection Heq as <- Heq.
      destruct (IH l1 Heq (fun H => Hno (or_intror H))) as [-> ->]. auto.
Qed.

Lemma remove_after_add (flag : string) (e : t) :
  ~ In flag (flags e) -> removeFlag flag (addFlag flag e) = e.
Proof.
  intros Hno.
  destruct (addFlag_spec flag e) as [[Hin _]|[_ Hadd]]; [contradiction|].
  destruct (removeFlag_spec flag (addFlag flag e))
    as [[Habs _]|(l1 & l2 & Heq & Hl1 & Hrem)].
  - exfalso. apply Habs. apply addFlag_In.
  - rewrite Hadd in Heq.
    destruct (split_at_last _ _ _ _ Heq Hno) as [-> ->].
    rewrite app_nil_r in Hrem.
    rewrite <- (eta (removeFlag flag (addFlag flag e))), Hrem. apply eta.
Qed.

Lemma add_after_add_back (flag : string) (e : t) :
  ~ In flag (flags e) ->
  addFlag flag (removeFlag flag (addFlag flag e)) = addFlag flag e.
Proof. intros Hno. now rewrite remove_after_add. Qed.

(** The visibility step does nothing to a text that already has the
    two flags as the request wants them. *)
Lemma editVisibility_settled (v : string) (e : t) :
  Forall (fun x => is_token x = true) (flags e) ->
  (In "Public" (flags e) <-> (str_indexOf "public" v >=? 0)%Z = true) ->
  (In "Preview" (flags e) <-> (str_indexOf "preview" v >=? 0)%Z = true) ->
  VSIXEditor.editVisibility v (toString e) = toString e.
Proof.
  intros Hall Hpub Hprev. unfold VSIXEditor.editVisibility.
  rewrite (new_toString e Hall).
  unfold addPublicFlag, removePublicFlag, addPreviewFlag, removePreviewFlag.
  assert (H1 : (if (str_indexOf "public" v >=? 0)%Z
                then addFlag "Public" e else removeFlag "Public" e) = e).
  { destruct (str_indexOf "public" v >=? 0)%Z.
    - apply addFlag_present. now apply Hpub.
    - apply removeFlag_absent. intros H. apply Hpub in H. discriminate. }
  rewrite H1.
  destruct (str_indexOf "preview" v >=? 0)%Z.
  - rewrite addFlag_present; [reflexivity|now apply Hprev].
  - rewrite removeFlag_absent; [reflexivity|].
    intros H. apply Hprev in H. discriminate.
Qed.

(** The editor the visibility step ends with, and what holds of it. *)
Lemma editVisibility_result (v g : string) :
  count_occ string_dec (tokens g) "Public" <= 1 ->
  count_occ string_dec (tokens g) "Preview" <= 1 ->
  exists e,
    VSIXEditor.editVisibility v g = toString e /\
    Forall (fun x => is_token x = true) (flags e) /\
    (In "Public" (flags e) <-> (str_indexOf "public" v >=? 0)%Z = true) /\
    (In "Preview" (flags e) <-> (str_indexOf "preview" v >=? 0)%Z = true) /\
    (forall y, y <> "Public" -> y <> "Preview" ->
       count_occ string_dec (flags e) y = count_occ string_dec (tokens g) y).
Proof.
  intros Hpub Hprev. unfold tokens in *. set (e0 := new g) in *.
  destruct (force_flag (str_indexOf "public" v >=? 0)%Z "Public" e0 Hpub)
    as (Hp1 & Hp2 & _).
  set (e1 := (if (str_indexOf "public" v >=? 0)%Z
              then addFlag "Public" else removeFlag "Public") e0) in *.
  assert (Hprev1 : count_occ string_dec (flags e1) "Preview" <= 1).
  { destruct (Hp2 "Preview") as [_ Hc]; [discriminate|]. now rewrite Hc. }
  destruct (force_flag (str_indexOf "preview" v >=? 0)%Z "Preview" e1 Hprev1)
    as (Hq1 & Hq2 & _).
  set (e2 := (if (str_indexOf "preview" v >=? 0)%Z
              then addFlag "Preview" else removeFlag "Preview") e1) in *.
  exists e2. split; [|split; [|split; [|split]]].
  - unfold VSIXEditor.editVisibility, addPublicFlag, removePublicFlag,
      addPreviewFlag, removePreviewFlag.
    subst e2 e1 e0.
    now destruct (str_indexOf "public" v >=? 0)%Z,
                 (str_indexOf "preview" v >=? 0)%Z.
  - pose proof (tokens_are_tokens g) as Hg. unfold tokens in Hg. fold e0 in Hg.
    subst e2 e1.
    destruct (str_indexOf "public" v >=? 0)%Z,
             (str_indexOf "preview" v >=? 0)%Z;
      repeat first [apply addFlag_tokens; [reflexivity|]
                   |apply removeFlag_tokens]; exact Hg.
  - destruct (Hq2 "Public") as [Hin _]; [discriminate|]. now rewrite Hin.
  - exact Hq1.
  - intros y Hy1 Hy2.
    destruct (Hq2 y Hy2) as [_ ->]. now destruct (Hp2 y Hy1) as [_ ->].
Qed.

(** The editor the pricing step ends with: it is left as it is by a
    second pricing step, and it treats every other token as before. *)
Lemma editPricing_result (p g : string) :
  count_occ string_dec (tokens g) "Paid" <= 1 ->
  exists e,
    VSIXEditor.editPricing p g = toString e /\
    Forall (fun x => is_token x = true) (flags e) /\
    VSIXEditor.editPricing p (toString e) = toString e /\
    (forall y, y <> "Paid" -> (In y (flags e) <-> In y (tokens g))).
Proof.
  intros Hpaid. unfold tokens in *. set (e0 := new g) in *.
  pose proof (tokens_are_tokens g) as Hg. unfold tokens in Hg. fold e0 in Hg.
  unfold VSIXEditor.editPricing. fold e0.
  unfold addPaidFlag, removePaidFlag.
  pose proof (removeFlag_spec "Paid" e0) as Hrem.
  pose proof (removed_first_gone _ _ _ Hrem Hpaid) as Hgone.
  destruct (str_indexOf "free" p >=? 0)%Z, (str_indexOf "paid" p >=? 0)%Z.
  - exists (addFlag "Paid" (removeFlag "Paid" e0)).
    split; [reflexivity|]. split; [|split].
    + apply addFlag_tokens; [reflexivity|now apply removeFlag_tokens].
    + rewrite new_toString
        by (apply addFlag_tokens; [reflexivity|now apply removeFlag_tokens]).
      now rewrite add_after_add_back.
    + intros y Hy.
      rewrite (added_if_absent_In "Paid" y _ _ (addFlag_spec _ _) Hy).
      exact (removed_first_In "Paid" y _ _ Hrem Hy).
  - exists (removeFlag "Paid" e0).
    split; [reflexivity|]. split; [|split].
    + now apply removeFlag_tokens.
    + rewrite new_toString by now apply removeFlag_tokens.
      now rewrite removeFlag_absent.
    + intros y Hy. exact (removed_first_In "Paid" y _ _ Hrem Hy).
  - exists (addFlag "Paid" e0).
    split; [reflexivity|]. split; [|split].
    + now apply addFlag_tokens.
    + rewrite new_toString by now apply addFlag_tokens.
      rewrite addFlag_present; [reflexivity|apply addFlag_In].
    + intros y Hy.
      exact (added_if_absent_In "Paid" y _ _ (addFlag_spec _ _) Hy).
  - exists e0. split; [reflexivity|]. split; [assumption|].
    split; [now rewrite new_toString|tauto].
Qed.

(** Applying the same visibility request, or the same pricing request,
    a second time changes nothing, when the flag concerned occurs at most
    once in the starting text. *)
Theorem flag_edits_idempotent (v p g : string) :
  (count_occ string_dec (tokens g) "Public" <= 1 ->
   count_occ string_dec (tokens g) "Preview" <= 1 ->
   VSIXEditor.editVisibility v (VSIXEditor.editVisibility v g)
   = VSIXEditor.editVisibility v g) /\
  (count_occ string_dec (tokens g) "Paid" <= 1 ->
   VSIXEditor.editPricing p (VSIXEditor.editPricing p g)
   = VSIXEditor.editPricing p g).
Proof.
  split.
  - intros Hpub Hprev.
    destruct (editVisibility_result v g Hpub Hprev)
      as (e & -> & Hall & H1 & H2 & _).
    now apply editVisibility_settled.
  - intros Hpaid.
    destruct (editPricing_result p g Hpaid) as (e & -> & _ & Hsame & _).
    exact Hsame.
Qed.

Lemma flag_edits_idempotent_witness :
  VSIXEditor.editVisibility "private"
    (VSIXEditor.editVisibility "private" "Public Paid")
  = VSIXEditor.editVisibility "private" "Public Paid" /\
  VSIXEditor.editPricing "freepaid" (VSIXEditor.editPricing "freepaid" "Paid Public")
  = VSIXEditor.editPricing "freepaid" "Paid Public".
Proof.
  destruct (flag_edits_idempotent "private" "freepaid" "Public Paid") as [Hv _].
  destruct (flag_edits_idempotent "private" "freepaid" "Paid Public") as [_ Hp].
  split; [apply Hv|apply Hp]; vm_compute; lia.
Defined.

End FlagsMore.

(* ================================================================== *)
(** * More on the patch of the manifest *)
(* ================================================================== *)

Module PatchMore.
Import Js Props JsFacts GalleryFlagsEditor FlagsFacts PatchFacts FlagsMore.
Import VSIXEditor.

(** The flags text of the patched manifest, step by step. *)
Lemma patch_flags (this : VSIXEditor.t) (m : VsixManifest) :
  GalleryFlags (patchManifest this m) =
  let g1 :=
    match extensionVisibility this with
    | Some v => if requested (Some v) then editVisibility v (GalleryFlags m)
                else GalleryFlags m
    | None => GalleryFlags m
    end in
  match extensionPricing this with
  | Some p => if requested (Some p) then editPricing p g1 else g1
  | None => g1
  end.
Proof. reflexivity. Qed.

Lemma NoDup_editVisibility (v g : string) :
  NoDup (tokens g) -> NoDup (tokens (editVisibility v g)).
Proof.
  intros Hnd. rewrite tokens_editVisibility.
  unfold addPublicFlag, removePublicFlag, addPreviewFlag, removePreviewFlag.
  unfold tokens in Hnd.
  destruct (str_indexOf "public" v >=? 0)%Z,
           (str_indexOf "preview" v >=? 0)%Z;
    repeat first
      [ eapply NoDup_added; [apply addFlag_spec|]
      | eapply (fun x b a H1 H2 => proj1 (NoDup_removed x b a H1 H2));
          [apply removeFlag_spec|] ];
    exact Hnd.
Qed.

Lemma NoDup_editPricing (p g : string) :
  NoDup (tokens g) -> NoDup (tokens (editPricing p g)).
Proof.
  intros Hnd. rewrite tokens_editPricing.
  unfold addPaidFlag, removePaidFlag. unfold tokens in Hnd.
  destruct (str_indexOf "free" p >=? 0)%Z, (str_indexOf "paid" p >=? 0)%Z;
    repeat first
      [ eapply NoDup_added; [apply addFlag_spec|]
      | eapply (fun x b a H1 H2 => proj1 (NoDup_removed x b a H1 H2));
          [apply removeFlag_spec|] ];
    exact Hnd.
Qed.

(** The patch never makes a flag appear twice: starting flags without
    repeats give patched flags without repeats, whatever the session
    asks for. *)
Theorem patch_keeps_flags_distinct (this : VSIXEditor.t) (m : VsixManifest) :
  NoDup (tokens (GalleryFlags m)) ->
  NoDup (tokens (GalleryFlags (patchManifest this m))).
Proof.
  intros Hnd. rewrite patch_flags. cbv zeta.
  assert (H1 : NoDup (tokens
            match extensionVisibility this with
            | Some v => if requested (Some v)
                        then editVisibility v (GalleryFlags m)
                        else GalleryFlags m
            | None => GalleryFlags m
            end)).
  { destruct (extensionVisibility this) as [v|]; [|assumption].
    destruct (requested (Some v)); [|assumption].
    now apply NoDup_editVisibility. }
  destruct (extensionPricing this) as [p|]; [|assumption].
  destruct (requested (Some p)); [|assumption].
  now apply NoDup_editPricing.
Qed.

Lemma patch_keeps_flags_distinct_witness :
  NoDup (tokens (GalleryFlags
                   (patchManifest
                      (set_extensionPricing (Some "paid")
                         (set_extensionVisibility (Some "preview") Demo.idle))
                      Demo.manifest))).
Proof.
  apply patch_keeps_flags_distinct.
  repeat constructor. intros [].
Defined.

(** With no text edit pending and no visibility or pricing request other
    than "default", the patch hands the manifest back as it is, flags
    text included, whatever [updateTasksVersion] and [updateTasksId]
    say. *)
Theorem patch_untouched (this : VSIXEditor.t) (m : VsixManifest) :
  is_set (versionNumber this) = false ->
  is_set (id this) = false ->
  is_set (idTag this) = false ->
  is_set (publisher this) = false ->
  is_set (extensionName this) = false ->
  requested (extensionVisibility this) = false ->
  requested (extensionPricing this) = false ->
  patchManifest this m = m.
Proof.
  intros Hv Hi Ht Hp Hn Hvis Hpri. unfold patchManifest.
  destruct (versionNumber this); rewrite ?Hv;
  destruct (id this); rewrite ?Hi;
  destruct (idTag this); rewrite ?Ht;
  destruct (publisher this); rewrite ?Hp;
  destruct (extensionName this); rewrite ?Hn;
  destruct (extensionVisibility this); rewrite ?Hvis;
  destruct (extensionPricing this); rewrite ?Hpri;
  now destruct m.
Qed.

Lemma patch_untouched_witness :
  patchManifest
    (set_extensionPricing (Some "default")
       (set_versionNumber (Some "") (set_updateTasksId true Demo.idle)))
    Demo.manifest = Demo.manifest.
Proof. apply patch_untouched; reflexivity. Defined.

(** The patch never blanks the identity: a manifest whose id, version
    and publisher are not empty keeps all three not empty. *)
Theorem patch_keeps_identity (this : VSIXEditor.t) (m : VsixManifest) :
  _Id m <> "" -> _Version m <> "" -> _Publisher m <> "" ->
  _Id (patchManifest this m) <> "" /\
  _Version (patchManifest this m) <> "" /\
  _Publisher (patchManifest this m) <> "".
Proof.
  intros Hi Hv Hp. unfold patchManifest. simpl.
  assert (Hset : forall v, is_set (Some v) = true -> v <> "").
  { intros v H. unfold is_set in H. simpl in H.
    now apply negb_true_iff, String.eqb_neq in H. }
  split; [|split].
  - assert (H1 : match id this with
                 | Some v => if is_set (Some v) then v else _Id m
                 | None => _Id m
                 end <> "").
    { destruct (id this) as [v|]; [|assumption].
      destruct (is_set (Some v)) eqn:H; [now apply Hset|assumption]. }
    destruct (idTag this) as [tag|]; [|assumption].
    destruct (is_set (Some tag)); [|assumption].
    intros H. apply H1.
    destruct (match id this with
              | Some v => if is_set (Some v) then v else _Id m
              | None => _Id m
              end); [reflexivity|discriminate].
  - destruct (versionNumber this) as [v|]; [|assumption].
    destruct (is_set (Some v)) eqn:H; [now apply Hset|assumption].
  - destruct (publisher this) as [v|]; [|assumption].
    destruct (is_set (Some v)) eqn:H; [now apply Hset|assumption].
Qed.

Lemma patch_keeps_identity_witness :
  _Id (patchManifest (set_idTag (Some "-dev") Demo.idle) Demo.manifest) <> "" /\
  _Version (patchManifest (set_idTag (Some "-dev") Demo.idle) Demo.manifest) <> "" /\
  _Publisher (patchManifest (set_idTag (Some "-dev") Demo.idle) Demo.manifest) <> "".
Proof. apply patch_keeps_identity; discriminate. Defined.

Lemma editVisibility_twice (v g : string) :
  count_occ string_dec (tokens g) "Public" <= 1 ->
  count_occ string_dec (tokens g) "Preview" <= 1 ->
  editVisibility v (editVisibility v g) = editVisibility v g.
Proof.
  intros Hpub Hprev.
  destruct (editVisibility_result v g Hpub Hprev)
    as (e & -> & Hall & H1 & H2 & _).
  now apply editVisibility_settled.
Qed.

Lemma editPricing_twice (p g : string) :
  count_occ string_dec (tokens g) "Paid" <= 1 ->
  editPricing p (editPricing p g) = editPricing p g.
Proof.
  intros Hpaid.
  destruct (editPricing_result p g Hpaid) as (e & -> & _ & Hsame & _).
  exact Hsame.
Qed.

(** Both flag steps in a row, done twice, are the same as done once. *)
Lemma both_edits_twice (v p g : string) :
  count_occ string_dec (tokens g) "Public" <= 1 ->
  count_occ string_dec (tokens g) "Preview" <= 1 ->
  count_occ string_dec (tokens g) "Paid" <= 1 ->
  editPricing p (editVisibility v (editPricing p (editVisibility v g)))
  = editPricing p (editVisibility v g).
Proof.
  intros Hpub Hprev Hpaid.
  destruct (editVisibility_result v g Hpub Hprev)
    as (e1 & -> & Hall1 & Hp1 & Hq1 & Hcount).
  assert (Hpaid1 : count_occ string_dec (tokens (toString e1)) "Paid" <= 1).
  { unfold toString. rewrite (tokens_join _ Hall1).
    rewrite Hcount by discriminate. exact Hpaid. }
  destruct (editPricing_result p (toString e1) Hpaid1)
    as (e2 & -> & Hall2 & Hsame & Hothers).
  unfold toString in Hothers at 1. rewrite (tokens_join _ Hall1) in Hothers.
  rewrite editVisibility_settled; [exact Hsame|assumption| |].
  - rewrite Hothers by discriminate. exact Hp1.
  - rewrite Hothers by discriminate. exact Hq1.
Qed.

(** Patching a patched manifest again with the same session changes
    nothing, provided each of "Public", "Preview" and "Paid" occurs at
    most once in the starting flags and an id tag comes with an id;
    an id tag on its own is appended once more at every patch. *)
Theorem patch_twice (this : VSIXEditor.t) (m : VsixManifest) :
  (count_occ string_dec (tokens (GalleryFlags m)) "Public" <= 1 ->
   count_occ string_dec (tokens (GalleryFlags m)) "Preview" <= 1 ->
   count_occ string_dec (tokens (GalleryFlags m)) "Paid" <= 1 ->
   (is_set (idTag this) = true -> is_set (id this) = true) ->
   patchManifest this (patchManifest this m) = patchManifest this m) /\
  (forall tag,
     is_set (id this) = false -> idTag this = Some tag -> tag <> "" ->
     _Id (patchManifest this (patchManifest this m))
     = (_Id m ++ tag ++ tag)%string).
Proof.
  split.
  - intros Hpub Hprev Hpaid Htag.
    assert (Hflags : GalleryFlags (patchManifest this (patchManifest this m))
                     = GalleryFlags (patchManifest this m)).
    { rewrite (patch_flags this (patchManifest this m)).
      rewrite (patch_flags this m). cbv zeta.
      destruct (extensionVisibility this) as [v|];
        [destruct (requested (Some v))|];
        (destruct (extensionPricing this) as [p|];
         [destruct (requested (Some p))|]);
        try reflexivity;
        first [ now apply both_edits_twice
              | now apply editVisibility_twice
              | now apply editPricing_twice ]. }
    unfold patchManifest in Hflags |- *. simpl in Hflags |- *.
    rewrite Hflags. f_equal.
    + destruct (id this) as [i|].
      * destruct (is_set (Some i)) eqn:Hi.
        -- reflexivity.
        -- destruct (idTag this) as [tag|]; [|reflexivity].
           destruct (is_set (Some tag)); [|reflexivity].
           specialize (Htag eq_refl). discriminate.
      * destruct (idTag this) as [tag|]; [|reflexivity].
        destruct (is_set (Some tag)); [|reflexivity].
        specialize (Htag eq_refl). discriminate.
    + destruct (versionNumber this) as [x|]; [|reflexivity].
      now destruct (is_set (Some x)).
    + destruct (publisher this) as [x|]; [|reflexivity].
      now destruct (is_set (Some x)).
    + destruct (extensionName this) as [x|]; [|reflexivity].
      now destruct (is_set (Some x)).
  - intros tag Hid Htag Hne. unfold patchManifest. simpl.
    rewrite Htag.
    assert (Hset : is_set (Some tag) = true).
    { unfold is_set. simpl. now apply negb_true_iff, String.eqb_neq. }
    rewrite Hset.
    assert (Hbase : forall x, match id this with
                              | Some v => if is_set (Some v) then v else x
                              | None => x
                              end = x).
    { intros x. destruct (id this) as [i|]; [|reflexivity]. now rewrite Hid. }
    rewrite !Hbase.
    clear. induction (_Id m) as [|c s IH]; simpl; [reflexivity|now rewrite IH].
Qed.

Lemma patch_twice_witness :
  let this := set_id (Some "y")
                (set_idTag (Some "-dev")
                   (set_extensionPricing (Some "freepaid")
                      (set_extensionVisibility (Some "public") Demo.idle))) in
  patchManifest this (patchManifest this Demo.manifest)
  = patchManifest this Demo.manifest.
Proof.
  apply (proj1 (patch_twice
           (set_id (Some "y")
              (set_idTag (Some "-dev")
                 (set_extensionPricing (Some "freepaid")
                    (set_extensionVisibility (Some "public") Demo.idle))))
           Demo.manifest)).
  - vm_compute. lia.
  - vm_compute. lia.
  - vm_compute. lia.
  - reflexivity.
Defined.

End PatchMore.

(* ================================================================== *)
(** * More on the round trip *)
(* ================================================================== *)

Module RoundTripMore.
Import Sys Js Props MoreProps VSIXEditor RoundTripFacts.

Lemma forallb_app_true {A} (f : A -> bool) (l1 l2 : list A) :
  forallb f l1 = true -> forallb f l2 = true -> forallb f (l1 ++ l2) = true.
Proof. intros H1 H2. rewrite forallb_app. now rewrite H1, H2. Qed.

Lemma avoids_ret (P : event -> bool) {A} (a : A) : avoids P (ret a).
Proof. intros w. exists []. simpl. now rewrite app_nil_r. Qed.

Lemma avoids_throw (P : event -> bool) {A} (message : string) :
  avoids P (@throw A message).
Proof. intros w. exists []. simpl. now rewrite app_nil_r. Qed.

Lemma avoids_getcwd (P : event -> bool) : avoids P getcwd.
Proof. intros w. exists []. simpl. now rewrite app_nil_r. Qed.

Lemma avoids_chdir (P : event -> bool) (dir : string) : avoids P (chdir dir).
Proof. intros w. exists []. simpl. now rewrite app_nil_r. Qed.

Lemma avoids_emit (P : event -> bool) (e : event) :
  P e = false -> avoids P (emit e).
Proof. intros H w. exists [e]. simpl. now rewrite H. Qed.

Lemma avoids_bind (P : event -> bool) {A B} (c : M A) (k : A -> M B) :
  avoids P c -> (forall a, avoids P (k a)) -> avoids P (bind c k).
Proof.
  intros Hc Hk w. rewrite bind_snd. specialize (Hc w).
  destruct (c w) as [[a|message] w1]; simpl in Hc; [|assumption].
  destruct Hc as (e1 & H1 & F1). destruct (Hk a w1) as (e2 & H2 & F2).
  exists (e1 ++ e2). rewrite H2, H1, app_assoc.
  split; [reflexivity|now apply forallb_app_true].
Qed.

(** After a step that always throws, nothing more is called. *)
Lemma avoids_bind_throws (P : event -> bool) {A B} (c : M A) (k : A -> M B) :
  avoids P c -> always_throws c -> avoids P (bind c k).
Proof.
  intros Hc Ht w. rewrite bind_snd. specialize (Hc w).
  destruct (Ht w) as (message & Hm).
  destruct (c w) as [[a|message'] w1]; simpl in *; [discriminate|assumption].
Qed.

Lemma throws_bind_head {A B} (c : M A) (k : A -> M B) :
  always_throws c -> always_throws (bind c k).
Proof.
  intros Ht w. destruct (Ht w) as (message & Hm). unfold bind.
  destruct (c w) as [[a|message'] w1]; simpl in *; [discriminate|].
  now exists message'.
Qed.

Lemma throws_bind_tail {A B} (c : M A) (k : A -> M B) :
  (forall a, always_throws (k a)) -> always_throws (bind c k).
Proof.
  intros Ht w. unfold bind.
  destruct (c w) as [[a|message] w1]; [apply Ht|now exists message].
Qed.

Lemma keeps_cwd_ret {A} (a : A) : keeps_cwd (ret a).
Proof. intros w. reflexivity. Qed.

Lemma keeps_cwd_throw {A} (message : string) : keeps_cwd (@throw A message).
Proof. intros w. reflexivity. Qed.

Lemma keeps_cwd_emit (e : event) : keeps_cwd (emit e).
Proof. intros w. reflexivity. Qed.

Lemma keeps_cwd_bind {A B} (c : M A) (k : A -> M B) :
  keeps_cwd c -> (forall a, keeps_cwd (k a)) -> keeps_cwd (bind c k).
Proof.
  intros Hc Hk w. rewrite bind_snd. specialize (Hc w).
  destruct (c w) as [[a|message] w1]; simpl in Hc; [|assumption].
  now rewrite Hk.
Qed.

Ltac avoids_tac :=
  repeat first
    [ apply avoids_ret | apply avoids_throw | apply avoids_getcwd
    | apply avoids_chdir
    | apply avoids_emit; reflexivity
    | apply avoids_bind; [|intros ?]
    | match goal with
      | |- avoids _ (if ?b then _ else _) => destruct b
      | |- avoids _ (match ?x with _ => _ end) => destruct x
      end ].

Ltac keeps_cwd_tac :=
  repeat first
    [ apply keeps_cwd_ret | apply keeps_cwd_throw | apply keeps_cwd_emit
    | apply keeps_cwd_bind; [|intros ?]
    | match goal with
      | |- keeps_cwd (if ?b then _ else _) => destruct b
      | |- keeps_cwd (match ?x with _ => _ end) => destruct x
      end ].

Ltac unfold_tools :=
  unfold Tl.debug, Tl.cwd, Tl.cd, Tl.cp, Tl.which, Tl.import_7zip_bin,
    Tl.import_x2js, Tl.execSync, Tl.temp_track, Tl.temp_mkdir,
    Tl.checkUpdateTasksManifests, Tl.readFile, Tl.writeFile, Tl.x2js_xml2js.

Lemma avoids_weaken (P Q : event -> bool) {A} (c : M A) :
  (forall e, Q e = true -> P e = true) -> avoids P c -> avoids Q c.
Proof.
  intros Hle Hc w. destruct (Hc w) as (evs & Htrace & Hall).
  exists evs. split; [assumption|].
  rewrite forallb_forall in Hall |- *. intros e He.
  specialize (Hall e He). destruct (Q e) eqn:Hq; [|reflexivity].
  now rewrite (Hle e Hq) in Hall.
Qed.

(** Extraction copies nothing and writes no file through the editor. *)
Lemma avoids_extractArchive (E : Env) (vsix tmpPath : string) :
  avoids is_output (extractArchive E vsix tmpPath).
Proof. unfold extractArchive. unfold_tools. avoids_tac. Qed.

Lemma keeps_cwd_extractArchive (E : Env) (vsix tmpPath : string) :
  keeps_cwd (extractArchive E vsix tmpPath).
Proof. intros w. apply extractArchive_cwd. Qed.

(** What a run of a step tells about the worlds around it. *)
Lemma run_facts (P : event -> bool) {A} (c : M A) (w w' : world) (r : result A) :
  avoids P c -> keeps_cwd c -> c w = (r, w') ->
  cwd w' = cwd w /\
  exists evs, trace w' = trace w ++ evs /\
              forallb (fun e => negb (P e)) evs = true.
Proof.
  intros Ha Hk Hrun. specialize (Ha w). specialize (Hk w).
  rewrite Hrun in Ha, Hk. auto.
Qed.

Lemma bind_ok_inv {A B} (c : M A) (k : A -> M B) (w w' : world) (b : B) :
  bind c k w = (Ok b, w') ->
  exists a w1, c w = (Ok a, w1) /\ k a w1 = (Ok b, w').
Proof.
  unfold bind. destruct (c w) as [[a|message] w1]; [|discriminate].
  intros H. now exists a, w1.
Qed.

(** A successful [editVsixManifest]: the manifest was read from the
    scratch directory, parsed, patched and written back to the same
    file, and the record returned carries the patched identity. *)
Lemma editVsixManifest_ok_inv (E : Env) (this : t) (d : string)
    (w w' : world) (md : ManifestData.t) :
  editVsixManifest E this d w = (Ok md, w') ->
  exists data parsed,
    readFile E (path_join E d "extension.vsixmanifest") = Some data /\
    xml2js E data = Some parsed /\
    md = ManifestData.new (_Version (patchManifest this parsed))
           (_Id (patchManifest this parsed))
           (_Publisher (patchManifest this parsed))
           (extensionVisibility this) (extensionPricing this)
           (DisplayName (patchManifest this parsed)) d /\
    w' = mkWorld (cwd w)
           (trace w ++ [Import "x2js";
                        ReadFile (path_join E d "extension.vsixmanifest");
                        WriteFile (path_join E d "extension.vsixmanifest")
                          (js2xml E (patchManifest this parsed))]).
Proof.
  intros H. unfold editVsixManifest in H. unfold_tools.
  unfold Tl.import_x2js, Tl.readFile, Tl.x2js_xml2js, Tl.writeFile in H.
  unfold bind, emit, ret, throw in H. simpl in H.
  destruct (x2js_ok E); [|discriminate]. simpl in H.
  destruct (readFile E (path_join E d "extension.vsixmanifest")) as [data|]
    eqn:Hread; [|discriminate]. simpl in H.
  destruct (xml2js E data) as [parsed|] eqn:Hparse; [|discriminate].
  simpl in H.
  destruct (writeFile_ok E _ _); [|discriminate]. simpl in H.
  injection H as <- <-. exists data, parsed.
  split; [reflexivity|]. split; [assumption|]. split; [reflexivity|].
  f_equal. rewrite <- ?app_assoc. reflexivity.
Qed.

Lemma avoids_prefix_steps (E : Env) :
  avoids is_output Tl.temp_track /\
  (forall a, avoids is_output (Tl.temp_mkdir E a)) /\
  (forall msg, avoids is_output (Tl.debug msg)) /\
  (forall p, avoids is_output (Tl.checkUpdateTasksManifests E p)) /\
  (forall m out, avoids is_output (ManifestData.createOutputFilePath E m out)).
Proof.
  repeat split; intros; unfold ManifestData.createOutputFilePath;
    unfold_tools; avoids_tac.
Qed.

Lemma keeps_cwd_steps (E : Env) :
  keeps_cwd Tl.temp_track /\
  (forall a, keeps_cwd (Tl.temp_mkdir E a)) /\
  (forall msg, keeps_cwd (Tl.debug msg)) /\
  (forall p, keeps_cwd (Tl.checkUpdateTasksManifests E p)) /\
  (forall m out, keeps_cwd (ManifestData.createOutputFilePath E m out)) /\
  (forall this d, keeps_cwd (editVsixManifest E this d)).
Proof.
  repeat split; intros;
    unfold ManifestData.createOutputFilePath, editVsixManifest;
    unfold_tools; keeps_cwd_tac.
Qed.

Lemma extends_createArchive (E : Env) (o tmp target : string) :
  avoids (fun _ => false) (createArchive E o tmp target).
Proof. unfold createArchive. unfold_tools. avoids_tac. Qed.

Lemma extends_of_quietly (c : M unit) :
  avoids is_output c -> avoids (fun _ => false) c.
Proof. apply avoids_weaken. discriminate. Qed.

Lemma cp_run (E : Env) (source dest options : string) (w : world) :
  Tl.cp E source dest options w =
  let w1 := mkWorld (cwd w) (trace w ++ [Cp source dest options]) in
  if cp_ok E source dest then (Ok tt, w1)
  else (Throw ("Failed cp: " ++ source), w1).
Proof.
  unfold Tl.cp, bind, emit. simpl. now destruct (cp_ok E source dest).
Qed.

(** The copy made by [createArchive]: none when source and target are
    the same path; otherwise it is the first call made. *)
Lemma createArchive_copy (E : Env) (o tmp target : string) (w : world) :
  (o = target ->
   exists evs, trace (snd (createArchive E o tmp target w)) = trace w ++ evs /\
               forallb (fun e => negb (is_output e)) evs = true) /\
  (o <> target ->
   exists evs, trace (snd (createArchive E o tmp target w))
               = trace w ++ Cp o target "-f" :: evs).
Proof.
  split.
  - intros ->.
    assert (H : avoids is_output (createArchive E target tmp target)).
    { unfold createArchive. rewrite String.eqb_refl. cbn [negb].
      unfold_tools. avoids_tac. }
    apply H.
  - intros Hne. apply String.eqb_neq in Hne.
    unfold createArchive. rewrite Hne. cbn [negb].
    rewrite bind_snd. unfold Tl.cwd at 1, getcwd at 1.
    rewrite bind_snd, cp_run. cbv zeta.
    destruct (cp_ok E o target).
    + match goal with
      | |- context [snd (?rest ?w1)] =>
          assert (Hrest : avoids (fun _ => false) rest)
            by (unfold_tools; avoids_tac);
          destruct (Hrest w1) as (evs & Hevs & _)
      end.
      exists evs. rewrite Hevs. simpl. now rewrite <- app_assoc.
    + exists []. reflexivity.
Qed.

(** A run of [endEdit] with pending edits that returns. *)
Lemma endEdit_ok_inv (E : Env) (this : t) (w w' : world) (path : string) :
  endEdit E this w = (Ok path, w') ->
  truthy (hasEdits this) = true ->
  exists d data parsed,
    mkdir E "vsixeditor" = Some d /\
    readFile E (path_join E d "extension.vsixmanifest") = Some data /\
    xml2js E data = Some parsed /\
    path = archiveName (patchManifest this parsed) /\
    In (WriteFile (path_join E d "extension.vsixmanifest")
          (js2xml E (patchManifest this parsed))) (trace w') /\
    (inputFile this <> path -> In (Cp (inputFile this) path "-f") (trace w')) /\
    cwd w' = cwd w.
Proof.
  intros H Hhas.
  destruct (avoids_prefix_steps E) as (At & Am & Ad & Au & Ao).
  destruct (keeps_cwd_steps E) as (Kt & Km & Kd & Ku & Ko & Ke).
  unfold endEdit in H. rewrite Hhas in H. cbn [negb] in H.
  apply bind_ok_inv in H as ([] & w0 & H0 & H).
  assert (w0 = w).
  { unfold validateEditMode in H0. destruct (negb (edit this));
      [discriminate|]. now injection H0. }
  subst w0. clear H0.
  apply bind_ok_inv in H as ([] & w1 & H1 & H).
  apply bind_ok_inv in H as (d & w2 & H2 & H).
  apply bind_ok_inv in H as ([] & w3 & H3 & H).
  apply bind_ok_inv in H as ([] & w4 & H4 & H).
  apply bind_ok_inv in H as ([] & w5 & H5 & H).
  apply bind_ok_inv in H as ([] & w6 & H6 & H).
  apply bind_ok_inv in H as (md & w7 & H7 & H).
  apply bind_ok_inv in H as (name & w8 & H8 & H).
  apply bind_ok_inv in H as ([] & w9 & H9 & H).
  apply bind_ok_inv in H as ([] & w10 & H10 & H).
  apply bind_ok_inv in H as ([] & w11 & H11 & H).
  unfold ret in H. injection H as <- <-.
  (* the working directory, step by step *)
  destruct (run_facts _ _ _ _ _ At Kt H1) as [C1 _].
  destruct (run_facts _ _ _ _ _ (Am _) (Km _) H2) as [C2 _].
  destruct (run_facts _ _ _ _ _ (Ad _) (Kd _) H3) as [C3 _].
  destruct (run_facts _ _ _ _ _ (avoids_extractArchive E _ _)
              (keeps_cwd_extractArchive E _ _) H4) as [C4 _].
  assert (C5 : cwd w5 = cwd w4).
  { destruct (truthy (updatesTasks this)).
    - apply bind_ok_inv in H5 as ([] & wa & Ha & Hb).
      destruct (run_facts _ _ _ _ _ (Ad _) (Kd _) Ha) as [Ca _].
      destruct (run_facts _ _ _ _ _ (Au _) (Ku _) Hb) as [Cb _].
      congruence.
    - unfold ret in H5. now injection H5 as <-. }
  destruct (run_facts _ _ _ _ _ (Ad _) (Kd _) H6) as [C6 _].
  destruct (editVsixManifest_ok_inv _ _ _ _ _ _ H7)
    as (data & parsed & Hread & Hparse & Hmd & Hw7).
  assert (C7 : cwd w7 = cwd w6) by (now rewrite Hw7).
  assert (T7 : In (WriteFile (path_join E d "extension.vsixmanifest")
                     (js2xml E (patchManifest this parsed))) (trace w7)).
  { rewrite Hw7. simpl. apply in_or_app. right. simpl. auto. }
  destruct (run_facts _ _ _ _ _ (Ao _ _) (Ko _ _) H8) as [C8 (e8 & T8 & _)].
  destruct (run_facts _ _ _ _ _ (Ad _) (Kd _) H9) as [C9 (e9 & T9 & _)].
  pose proof (createArchive_returns_cwd E (inputFile this)
                (ManifestData.dirPath
                   (ManifestData.set_outputFileName name md)) name w9) as C10.
  rewrite H10 in C10. specialize (C10 eq_refl). simpl in C10.
  destruct (extends_createArchive E (inputFile this)
              (ManifestData.dirPath
                 (ManifestData.set_outputFileName name md)) name w9)
    as (e10 & T10 & _).
  rewrite H10 in T10. simpl in T10.
  destruct (run_facts _ _ _ _ _ (Ad _) (Kd _) H11) as [C11 (e11 & T11 & _)].
  assert (Hname : name = archiveName (patchManifest this parsed)).
  { unfold ManifestData.createOutputFilePath, bind, emit, ret in H8.
    simpl in H8. injection H8 as <- _. now rewrite Hmd. }
  exists d, data, parsed.
  split.
  { rewrite temp_mkdir_run in H2. cbv zeta in H2.
    destruct (mkdir E "vsixeditor"); [|discriminate]. now injection H2 as ->. }
  split; [assumption|]. split; [assumption|]. split; [assumption|].
  split; [|split].
  - rewrite T11, T10, T9, T8. repeat (apply in_or_app; left). exact T7.
  - intros Hne.
    destruct (createArchive_copy E (inputFile this)
                (ManifestData.dirPath
                   (ManifestData.set_outputFileName name md)) name w9)
      as [_ Hcp].
    destruct (Hcp Hne) as (evs & Hevs). rewrite H10 in Hevs. simpl in Hevs.
    rewrite T11, Hevs. apply in_or_app. left. apply in_or_app. right.
    now left.
  - congruence.
Qed.


Ltac extends_tac :=
  unfold extractArchive, createArchive, editVsixManifest,
    ManifestData.createOutputFilePath, validateEditMode;
  unfold_tools; avoids_tac.

(** When [endEdit] returns with edits pending: a scratch directory was
    made, its [extension.vsixmanifest] was read and parsed, the patched
    manifest was written back to that file, the name returned is
    publisher.id-version.gen.vsix of the patched identity (a bare file
    name, whatever the output path), the input archive was copied to
    that name unless it is that name, and the working directory is where
    it was. *)
Theorem endEdit_success (E : Env) (this : t) (w w' : world) (path : string) :
  endEdit E this w = (Ok path, w') ->
  truthy (hasEdits this) = true ->
  exists d data parsed,
    mkdir E "vsixeditor" = Some d /\
    readFile E (path_join E d "extension.vsixmanifest") = Some data /\
    xml2js E data = Some parsed /\
    path = archiveName (patchManifest this parsed) /\
    In (WriteFile (path_join E d "extension.vsixmanifest")
          (js2xml E (patchManifest this parsed))) (trace w') /\
    (inputFile this <> path -> In (Cp (inputFile this) path "-f") (trace w')) /\
    cwd w' = cwd w.
Proof. exact (endEdit_ok_inv E this w w' path). Qed.

Lemma endEdit_success_witness :
  let E := Demo.env [] (Exited 0) in
  let this := set_versionNumber (Some "2.0") Demo.idle in
  let w' := snd (endEdit E this Demo.world0) in
  exists d data parsed,
    mkdir E "vsixeditor" = Some d /\
    readFile E (path_join E d "extension.vsixmanifest") = Some data /\
    xml2js E data = Some parsed /\
    "p.x-2.0.gen.vsix" = archiveName (patchManifest this parsed) /\
    In (WriteFile (path_join E d "extension.vsixmanifest")
          (js2xml E (patchManifest this parsed))) (trace w') /\
    (inputFile this <> "p.x-2.0.gen.vsix" ->
     In (Cp (inputFile this) "p.x-2.0.gen.vsix" "-f") (trace w')) /\
    cwd w' = cwd Demo.world0.
Proof.
  apply (endEdit_success (Demo.env [] (Exited 0))
           (set_versionNumber (Some "2.0") Demo.idle) Demo.world0);
    reflexivity.
Defined.

(** Whenever [endEdit] returns, with or without pending edits, the
    working directory is the one it was called in. *)
Theorem endEdit_returns_in_place (E : Env) (this : t) (w : world) (path : string) :
  fst (endEdit E this w) = Ok path ->
  cwd (snd (endEdit E this w)) = cwd w.
Proof.
  intros H. destruct (truthy (hasEdits this)) eqn:Hhas.
  - destruct (endEdit E this w) as [r w'] eqn:Hrun. simpl in H. subst r.
    destruct (endEdit_ok_inv E this w w' path Hrun Hhas)
      as (d & data & parsed & _ & _ & _ & _ & _ & _ & Hcwd).
    exact Hcwd.
  - destruct (edit this) eqn:Hedit.
    + now rewrite SessionFacts.endEdit_idle.
    + now rewrite SessionFacts.endEdit_unstarted.
Qed.

Lemma endEdit_returns_in_place_witness :
  cwd (snd (endEdit (Demo.env [] (Exited 3))
              (set_extensionName (Some "Tool") Demo.idle) Demo.world0))
  = "/agent".
Proof.
  apply (endEdit_returns_in_place (Demo.env [] (Exited 3))
           (set_extensionName (Some "Tool") Demo.idle) Demo.world0
           "p.x-1.0.gen.vsix").
  reflexivity.
Defined.

(** The copy made by the compression step: none when the original and
    the target are the same path (nothing is copied or written then);
    otherwise the copy with option -f is the first call it makes. *)
Theorem createArchive_copies_first (E : Env) (o tmp target : string) (w : world) :
  (o = target ->
   exists evs, trace (snd (createArchive E o tmp target w)) = trace w ++ evs /\
               forallb (fun e => negb (is_output e)) evs = true) /\
  (o <> target ->
   exists evs, trace (snd (createArchive E o tmp target w))
               = trace w ++ Cp o target "-f" :: evs).
Proof. exact (createArchive_copy E o tmp target w). Qed.

Lemma createArchive_copies_first_witness :
  exists evs,
    trace (snd (createArchive (Demo.env [] (Exited 0)) "a.vsix" "/tmp/x"
                  "a.vsix" Demo.world0)) = trace Demo.world0 ++ evs /\
    forallb (fun e => negb (is_output e)) evs = true.
Proof.
  apply (proj1 (createArchive_copies_first (Demo.env [] (Exited 0)) "a.vsix"
                  "/tmp/x" "a.vsix" Demo.world0)).
  reflexivity.
Defined.

Lemma throws_bind_when {A B} (Q : A -> Prop) (c : M A) (k : A -> M B) :
  (forall w a w1, c w = (Ok a, w1) -> Q a) ->
  (forall a, Q a -> always_throws (k a)) -> always_throws (bind c k).
Proof.
  intros Hq Ht w. unfold bind.
  destruct (c w) as [[a|message] w1] eqn:Hrun; [|now exists message].
  apply Ht. exact (Hq w a w1 Hrun).
Qed.

Lemma avoids_bind_when (P : event -> bool) {A B} (Q : A -> Prop)
    (c : M A) (k : A -> M B) :
  (forall w a w1, c w = (Ok a, w1) -> Q a) ->
  avoids P c -> (forall a, Q a -> avoids P (k a)) -> avoids P (bind c k).
Proof.
  intros Hq Hc Hk w. rewrite bind_snd. specialize (Hc w).
  destruct (c w) as [[a|message] w1] eqn:Hrun; simpl in Hc; [|assumption].
  destruct Hc as (e1 & H1 & F1).
  destruct (Hk a (Hq w a w1 Hrun) w1) as (e2 & H2 & F2).
  exists (e1 ++ e2). rewrite H2, H1, app_assoc.
  split; [reflexivity|now apply forallb_app_true].
Qed.

(** The manifest of scratch directory [d] holds [data], which the parser
    rejects: [editVsixManifest] throws there, before any write. *)
Lemma editVsixManifest_unparsed (E : Env) (this : t) (d data : string) :
  readFile E (path_join E d "extension.vsixmanifest") = Some data ->
  xml2js E data = None ->
  always_throws (editVsixManifest E this d) /\
  avoids is_output (editVsixManifest E this d).
Proof.
  intros Hread Hparse.
  assert (Hq : forall w a w1,
             Tl.readFile E (path_join E d "extension.vsixmanifest") w
             = (Ok a, w1) -> a = data).
  { intros w a w1. unfold Tl.readFile, bind, emit. rewrite Hread. simpl.
    unfold ret. now intros [= <- _]. }
  assert (Ht : always_throws (Tl.x2js_xml2js E data)).
  { intros w. unfold Tl.x2js_xml2js. rewrite Hparse. now eexists. }
  assert (Ha : avoids is_output (Tl.x2js_xml2js E data)).
  { unfold Tl.x2js_xml2js. rewrite Hparse. apply avoids_throw. }
  unfold editVsixManifest. split.
  - apply throws_bind_tail; intros _.
    apply (throws_bind_when (fun a => a = data)); [exact Hq|].
    intros a ->. now apply throws_bind_head.
  - apply avoids_bind; [unfold_tools; avoids_tac|intros _].
    apply (avoids_bind_when _ (fun a => a = data)); [exact Hq| |].
    + unfold_tools. avoids_tac.
    + intros a ->. now apply avoids_bind_throws.
Qed.

(** When the manifest read from the scratch directory cannot be parsed,
    [endEdit] with pending edits throws, and up to there it has copied no
    archive and written no file: no partial output is left behind by the
    editor. *)
Theorem endEdit_parse_failure (E : Env) (this : t) (w : world)
    (d data : string) :
  mkdir E "vsixeditor" = Some d ->
  readFile E (path_join E d "extension.vsixmanifest") = Some data ->
  xml2js E data = None ->
  truthy (hasEdits this) = true ->
  (exists message, fst (endEdit E this w) = Throw message) /\
  exists evs,
    trace (snd (endEdit E this w)) = trace w ++ evs /\
    forallb (fun e => negb (is_output e)) evs = true.
Proof.
  intros Hmk Hread Hparse Hhas.
  destruct (avoids_prefix_steps E) as (At & Am & Ad & Au & Ao).
  destruct (editVsixManifest_unparsed E this d data Hread Hparse) as [Et Ea].
  assert (Hq : forall w0 a w1,
             Tl.temp_mkdir E "vsixeditor" w0 = (Ok a, w1) -> a = d).
  { intros w0 a w1. rewrite temp_mkdir_run, Hmk. cbv zeta.
    now intros [= <- _]. }
  assert (Ht : always_throws (endEdit E this)).
  { unfold endEdit. rewrite Hhas. cbn [negb].
    do 2 (apply throws_bind_tail; intros ?).
    apply (throws_bind_when (fun a => a = d)); [exact Hq|].
    intros d' Hd'. subst d'.
    do 4 (apply throws_bind_tail; intros ?).
    now apply throws_bind_head. }
  assert (Ha : avoids is_output (endEdit E this)).
  { unfold endEdit. rewrite Hhas. cbn [negb].
    apply avoids_bind; [unfold validateEditMode; avoids_tac|intros _].
    apply avoids_bind; [exact At|intros _].
    apply (avoids_bind_when _ (fun a => a = d)); [exact Hq|apply Am|].
    intros d' Hd'. subst d'.
    apply avoids_bind; [apply Ad|intros _].
    apply avoids_bind; [apply avoids_extractArchive|intros _].
    apply avoids_bind.
    { destruct (truthy (updatesTasks this)); [|apply avoids_ret].
      apply avoids_bind; [apply Ad|intros _; apply Au]. }
    intros _. apply avoids_bind; [apply Ad|intros _].
    now apply avoids_bind_throws. }
  split; [apply Ht|apply Ha].
Qed.

Lemma endEdit_parse_failure_witness :
  let E := rejecting "<PackageManifest/>" (Demo.env [] (Exited 0)) in
  let this := set_versionNumber (Some "2.0") Demo.idle in
  xml2js E "<PackageManifest><Metadata/></PackageManifest>" = Some Demo.manifest /\
  (exists message, fst (endEdit E this Demo.world0) = Throw message) /\
  exists evs,
    trace (snd (endEdit E this Demo.world0)) = trace Demo.world0 ++ evs /\
    forallb (fun e => negb (is_output e)) evs = true.
Proof.
  split; [reflexivity|].
  apply (endEdit_parse_failure
           (rejecting "<PackageManifest/>" (Demo.env [] (Exited 0)))
           (set_versionNumber (Some "2.0") Demo.idle) Demo.world0
           "/tmp/vsixeditor" "<PackageManifest/>");
    reflexivity.
Defined.

(** With edits pending, [endEdit] on a started session begins by
    tracking temporary files and asking for a scratch directory named
    after "vsixeditor"; a session that was only started has edits pending,
    because [updateTasksId] starts out true. *)
Theorem endEdit_begins_round_trip (E : Env) (this : t) (w : world) :
  (edit this = true -> truthy (hasEdits this) = true ->
   exists evs,
     trace (snd (endEdit E this w))
     = trace w ++ TempTrack :: TempMkdir "vsixeditor" :: evs) /\
  (forall inputFile outputPath b,
     truthy (hasEdits (set_updateTasksVersion b
                         (set_edit true (new inputFile outputPath)))) = true).
Proof.
  split; [|reflexivity].
  intros Hedit Hhas. unfold endEdit, validateEditMode.
  rewrite Hedit, Hhas. cbn [negb].
  rewrite bind_snd. unfold ret at 1. cbv beta iota.
  rewrite bind_snd. unfold Tl.temp_track at 1, emit at 1.
  rewrite bind_snd, temp_mkdir_run. cbv zeta.
  destruct (mkdir E "vsixeditor") as [d|].
  - match goal with
    | |- context [snd (?rest ?w1)] =>
        assert (Hrest : avoids (fun _ => false) rest) by extends_tac;
        destruct (Hrest w1) as (evs & Hevs & _)
    end.
    exists evs. rewrite Hevs. simpl. now rewrite <- !app_assoc.
  - exists []. simpl. now rewrite <- !app_assoc.
Qed.

Lemma endEdit_begins_round_trip_witness :
  exists evs,
    trace (snd (endEdit (Demo.env [] (Exited 0))
                  (set_edit true (new "in.vsix" "out")) Demo.world0))
    = trace Demo.world0 ++ TempTrack :: TempMkdir "vsixeditor" :: evs.
Proof.
  apply (proj1 (endEdit_begins_round_trip (Demo.env [] (Exited 0))
                  (set_edit true (new "in.vsix" "out")) Demo.world0));
    reflexivity.
Defined.

End RoundTripMore.

(* ================================================================== *)
(** * More on the session: scripts of calls *)
(* ================================================================== *)

Module SessionMore.
Import Sys Js Props MoreProps VSIXEditor RoundTripMore.

(** What one successful call leaves: the same files, the flag up, and a
    world untouched unless the call was [startEdit] or [endEdit]. *)
Lemma invoke_ok_inv (E : Env) (c : call) (this this' : t)
    (r : option string) (w w' : world) :
  invoke E c this w = (Ok (this', r), w') ->
  inputFile this' = inputFile this /\
  outputPath this' = outputPath this /\
  edit this' = true /\
  (is_start c = true -> edit this = false) /\
  (is_start c = false -> edit this = true) /\
  (match c with StartEdit | EndEdit => False | _ => True end -> w' = w).
Proof.
  intros H. destruct c;
    try (unfold invoke, editVersion, editExtensionName,
           editExtensionVisibility, editExtensionPricing, editId, editIdTag,
           editPublisher, editUpdateTasksVersion, editUpdateTasksId,
           validateEditMode, bind, ret, throw in H;
         destruct (edit this) eqn:Hedit; simpl in H; [|discriminate];
         injection H as <- <- <-; simpl; rewrite ?Hedit;
         repeat split; auto; discriminate).
  - unfold invoke, startEdit, bind in H.
    destruct (edit this) eqn:Hedit; [discriminate|].
    simpl in H. unfold ret in H. injection H as <- <- <-.
    repeat split; auto; try discriminate; try (now intros []).
  - unfold invoke, bind in H.
    destruct (edit this) eqn:Hedit.
    + destruct (endEdit E this w) as [[path|message] w1]; [|discriminate].
      unfold ret in H. injection H as <- <- <-.
      repeat split; auto; try discriminate; try (now intros []).
    + rewrite SessionFacts.endEdit_unstarted in H by assumption. discriminate.
Qed.

Lemma script_cons_inv (E : Env) (c : call) (cs : list call) (this this' : t)
    (rs : list (option string)) (w w' : world) :
  script E (c :: cs) this w = (Ok (this', rs), w') ->
  exists this1 r w1 rs1,
    invoke E c this w = (Ok (this1, r), w1) /\
    script E cs this1 w1 = (Ok (this', rs1), w') /\
    rs = r :: rs1.
Proof.
  simpl. intros H.
  apply bind_ok_inv in H as ([this1 r] & w1 & Hc & H).
  apply bind_ok_inv in H as ([this2 rs1] & w2 & Hcs & H).
  unfold ret in H. simpl in H. injection H as <- <- <-.
  now exists this1, r, w1, rs1.
Qed.

(** Over any script of calls that runs to its end: the input file and
    the output path of the session never change, every call has its
    result, the session ends started unless the script is empty, and a
    script of edit calls alone leaves the world exactly as it was. *)
Theorem script_keeps_session (E : Env) (cs : list call) (this this' : t)
    (rs : list (option string)) (w w' : world) :
  script E cs this w = (Ok (this', rs), w') ->
  inputFile this' = inputFile this /\
  outputPath this' = outputPath this /\
  List.length rs = List.length cs /\
  (cs <> [] -> edit this' = true) /\
  (forallb (fun c => match c with StartEdit | EndEdit => false | _ => true end)
     cs = true -> w' = w).
Proof.
  revert this rs w. induction cs as [|c cs IH]; intros this rs w H.
  - simpl in H. unfold ret in H. injection H as <- <- <-.
    repeat split; auto; congruence.
  - apply script_cons_inv in H as (this1 & r & w1 & rs1 & Hc & Hcs & ->).
    destruct (invoke_ok_inv _ _ _ _ _ _ _ Hc)
      as (Hin & Hout & Hedit & _ & _ & Hpure).
    destruct (IH _ _ _ Hcs) as (Hin' & Hout' & Hlen & Hstarted & Hworld).
    split; [congruence|]. split; [congruence|]. split; [simpl; congruence|].
    split.
    + intros _. destruct cs as [|c' cs']; [|apply Hstarted; discriminate].
      simpl in Hcs. unfold ret in Hcs. now injection Hcs as <- _ _.
    + simpl. intros Hall. apply andb_true_iff in Hall as [Hc1 Hall].
      rewrite (Hworld Hall). apply Hpure. now destruct c.
Qed.

Lemma script_keeps_session_witness :
  let cs := [EditVersion "2.0"; EditIdTag "-dev"; EditUpdateTasksId true] in
  let this' :=
    set_updateTasksId true
      (set_idTag (Some "-dev") (set_versionNumber (Some "2.0") Demo.idle)) in
  inputFile this' = inputFile Demo.idle /\
  outputPath this' = outputPath Demo.idle /\
  List.length [@None string; None; None] = List.length cs /\
  (cs <> [] -> edit this' = true) /\
  (forallb (fun c => match c with StartEdit | EndEdit => false | _ => true end)
     cs = true -> Demo.world0 = Demo.world0).
Proof.
  apply (script_keeps_session (Demo.env [] (Exited 0))
           [EditVersion "2.0"; EditIdTag "-dev"; EditUpdateTasksId true]
           Demo.idle
           (set_updateTasksId true
              (set_idTag (Some "-dev")
                 (set_versionNumber (Some "2.0") Demo.idle)))
           [None; None; None] Demo.world0 Demo.world0).
  reflexivity.
Defined.

Lemma started_script_never_starts (E : Env) (cs : list call) (this this' : t)
    (rs : list (option string)) (w w' : world) :
  edit this = true ->
  script E cs this w = (Ok (this', rs), w') ->
  forallb (fun c => negb (is_start c)) cs = true.
Proof.
  revert this rs w. induction cs as [|c cs IH]; intros this rs w Hedit H;
    [reflexivity|].
  apply script_cons_inv in H as (this1 & r & w1 & rs1 & Hc & Hcs & ->).
  destruct (invoke_ok_inv _ _ _ _ _ _ _ Hc)
    as (_ & _ & Hedit1 & Hstart & _ & _).
  simpl. rewrite (IH _ _ _ Hedit1 Hcs), andb_true_r.
  destruct (is_start c); [|reflexivity].
  specialize (Hstart eq_refl). congruence.
Qed.

(** A script on a new session that runs to its end is empty, or begins
    with [startEdit] and never calls it again. *)
Theorem script_starts_once (E : Env) (cs : list call)
    (inputFile outputPath : string) (this' : t) (rs : list (option string))
    (w w' : world) :
  script E cs (new inputFile outputPath) w = (Ok (this', rs), w') ->
  cs = [] \/
  exists cs', cs = StartEdit :: cs' /\
              forallb (fun c => negb (is_start c)) cs' = true.
Proof.
  intros H. destruct cs as [|c cs]; [now left|right].
  apply script_cons_inv in H as (this1 & r & w1 & rs1 & Hc & Hcs & ->).
  destruct (invoke_ok_inv _ _ _ _ _ _ _ Hc)
    as (_ & _ & Hedit1 & _ & Hnot & _).
  assert (Hc' : c = StartEdit).
  { destruct c; try reflexivity; specialize (Hnot eq_refl); discriminate. }
  subst c. exists cs. split; [reflexivity|].
  exact (started_script_never_starts _ _ _ _ _ _ _ Hedit1 Hcs).
Qed.

Lemma script_starts_once_witness :
  let cs := [StartEdit; EditUpdateTasksId false; EndEdit] in
  cs = [] \/
  exists cs', cs = StartEdit :: cs' /\
              forallb (fun c => negb (is_start c)) cs' = true.
Proof.
  apply (script_starts_once (Demo.env [] (Exited 0))
           [StartEdit; EditUpdateTasksId false; EndEdit] "in.vsix" "out"
           (set_updateTasksId false (set_edit true (new "in.vsix" "out")))
           [None; None; Some "in.vsix"] Demo.world0
           (mkWorld "/agent" [Debug "Editing started"])).
  reflexivity.
Defined.

End SessionMore.
